(** * rhiza-tools: the [bump] command

    A shallow embedding of [src/rhiza_tools/commands/bump.py] and the
    properties of it that the specification states.

    The command reads the version of a project from [pyproject.toml],
    works out the next version (a bump keyword, an explicit version, or an
    interactive choice), and writes it back, re-reading the file to check
    the write.

    The Python module calls four libraries.  They are modelled as follows.
    - [semver]: a concrete model of the data of [semver.Version], of
      [__str__] and of the three [bump_*] methods; [Version.parse] is an
      interface ([semver.Parser]), since what it accepts depends on the
      release of the library, and the command is verified for every
      parser that reads back what [__str__] prints.  A concrete parser,
      python-semver 3.0 on ASCII text, is given to run the command.
    - [tomlkit]: an interface ([TomlKit]); the command is verified for every
      implementation of it.  A small concrete implementation is given to
      run the command on concrete inputs.
    - [questionary]: the answer to the prompt is an input of the run.
    - [typer], [loguru]: [typer.Exit] is an exception of the model, log
      records are events of the run's trace.

    A text, in memory or in the file, is a [string]: the sequence of its
    characters, a character outside ASCII being the bytes of its UTF-8
    form.  The module looks into a text with [startswith("v")], [[1:]]
    after a [v], equality and truth value only, which are the same on
    characters and on these bytes.  How the platform encodes the text of a
    file is not modelled, except that writing a text which its encoding
    cannot express fails ([encodable]). *)

From Stdlib Require Import String Ascii List Bool NArith ZArith Lia.
From Stdlib Require Import Decimal DecimalFacts DecimalN DecimalString.
Import ListNotations.

Local Open Scope string_scope.

(** ** Strings, the way Python uses them here *)

Module Str.

(** [all p s]: every character of [s] satisfies [p]. *)
Fixpoint all (p : ascii -> bool) (s : string) : bool :=
  match s with
  | EmptyString => true
  | String c r => p c && all p r
  end.

(** [span p s]: the longest prefix of [s] whose characters satisfy [p],
    and what follows it. *)
Fixpoint span (p : ascii -> bool) (s : string) : string * string :=
  match s with
  | EmptyString => (EmptyString, EmptyString)
  | String c r =>
      if p c then let (a, b) := span p r in (String c a, b)
      else (EmptyString, s)
  end.

(** [split sep s]: Python's [s.split(sep)] for a one-character separator;
    the result is never empty. *)
Fixpoint split (sep : ascii) (s : string) : list string :=
  match s with
  | EmptyString => [EmptyString]
  | String c r =>
      if Ascii.eqb c sep then EmptyString :: split sep r
      else match split sep r with
           | [] => [String c EmptyString]
           | w :: ws => String c w :: ws
           end
  end.

(** [s.startswith(p)]. *)
Fixpoint startswith (s p : string) {struct p} : bool :=
  match p with
  | EmptyString => true
  | String a p' =>
      match s with
      | EmptyString => false
      | String b s' => Ascii.eqb b a && startswith s' p'
      end
  end.

(** [s[1:]]. *)
Definition tail (s : string) : string :=
  match s with
  | EmptyString => EmptyString
  | String _ r => r
  end.

(** Truth value of a Python string: non-empty. *)
Definition truthy (s : string) : bool :=
  match s with
  | EmptyString => false
  | String _ _ => true
  end.

Definition LF : ascii := Ascii.ascii_of_nat 10.
Definition CR : ascii := Ascii.ascii_of_nat 13.

Definition is_digit (c : ascii) : bool :=
  (Ascii.leb "0" c && Ascii.leb c "9")%char.

Definition is_letter (c : ascii) : bool :=
  ((Ascii.leb "a" c && Ascii.leb c "z") || (Ascii.leb "A" c && Ascii.leb c "Z"))%char.

End Str.

(** ** The [semver] library

    [semver.Version] of python-semver 3.  The texts of semantic versions
    are those of the grammar MAJOR.MINOR.PATCH[-PRERELEASE][+BUILD]:
    - three numbers separated by dots, each one [0] or a run of digits
      that does not start with [0];
    - then, optionally, [-] and the pre-release: identifiers separated by
      dots, each a non-empty run of digits, letters and hyphens which, when
      it is all digits, is [0] or does not start with [0];
    - then, optionally, [+] and the build: identifiers separated by dots,
      each a non-empty run of digits, letters and hyphens.
    [match_version] reads a text of this grammar, with ASCII digits and
    letters.  [ValueError] is [None]. *)

Module semver.

Record Version : Type := mkVersion {
  major : N;
  minor : N;
  patch : N;
  prerelease : option string;
  build : option string
}.

(** A number of the version core: the run of digits [ds] is [0] or does
    not start with [0]; its value is [int(ds)]. *)
Definition numeric (ds : string) : option N :=
  match ds with
  | EmptyString => None
  | String c r =>
      if (Ascii.eqb c "0" && Str.truthy r)%bool then None
      else option_map N.of_uint (NilEmpty.uint_of_string ds)
  end.

(** A digit, a letter or a hyphen. *)
Definition is_ident_char (c : ascii) : bool :=
  Str.is_digit c || Str.is_letter c || Ascii.eqb c "-".

(** An identifier of the build metadata. *)
Definition build_ident (s : string) : bool :=
  Str.truthy s && Str.all is_ident_char s.

(** An identifier of the pre-release: when it is all digits it is a
    number as in the version core. *)
Definition prerelease_ident (s : string) : bool :=
  build_ident s &&
  (if Str.all Str.is_digit s
   then match numeric s with Some _ => true | None => false end
   else true).

(** The [$] of Python's [re] also matches just before a line feed that
    ends the string: that line feed is outside every group. *)
Fixpoint drop_final_newline (s : string) : string :=
  match s with
  | EmptyString => EmptyString
  | String c EmptyString =>
      if Ascii.eqb c Str.LF then EmptyString else s
  | String c r => String c (drop_final_newline r)
  end.

(** What may follow the patch number: nothing, [-prerelease], [+build] or
    [-prerelease+build]. *)
Definition parse_suffix (ma mi pa : N) (s : string) : option Version :=
  match s with
  | EmptyString => Some (mkVersion ma mi pa None None)
  | String c r =>
      if Ascii.eqb c "-" then
        let (pre, r') := Str.span (fun x => negb (Ascii.eqb x "+")) r in
        if forallb prerelease_ident (Str.split "." pre) then
          match r' with
          | EmptyString => Some (mkVersion ma mi pa (Some pre) None)
          | String _ b =>
              if forallb build_ident (Str.split "." b)
              then Some (mkVersion ma mi pa (Some pre) (Some b))
              else None
          end
        else None
      else if Ascii.eqb c "+" then
        if forallb build_ident (Str.split "." r)
        then Some (mkVersion ma mi pa None (Some r))
        else None
      else None
  end.

(** The version that a text of the grammar stands for. *)
Definition match_version (s : string) : option Version :=
  let (d1, r1) := Str.span Str.is_digit s in
  match numeric d1, r1 with
  | Some ma, String "." r1' =>
      let (d2, r2) := Str.span Str.is_digit r1' in
      match numeric d2, r2 with
      | Some mi, String "." r2' =>
          let (d3, r3) := Str.span Str.is_digit r2' in
          match numeric d3 with
          | Some pa => parse_suffix ma mi pa r3
          | None => None
          end
      | _, _ => None
      end
  | _, _ => None
  end.

(** ["%d" % n]. *)
Definition decimal (n : N) : string := NilEmpty.string_of_uint (N.to_uint n).

(** [Version.__str__]. *)
Definition to_string (v : Version) : string :=
  decimal (major v) ++ "." ++ decimal (minor v) ++ "." ++ decimal (patch v)
  ++ match prerelease v with
     | Some p => if Str.truthy p then "-" ++ p else ""
     | None => ""
     end
  ++ match build v with
     | Some b => if Str.truthy b then "+" ++ b else ""
     | None => ""
     end.

(** [Version.bump_patch], [bump_minor], [bump_major]: a new [Version] built
    from the numbers alone. *)
Definition bump_patch (v : Version) : Version :=
  mkVersion (major v) (minor v) (patch v + 1) None None.

Definition bump_minor (v : Version) : Version :=
  mkVersion (major v) (minor v + 1) 0 None None.

Definition bump_major (v : Version) : Version :=
  mkVersion (major v + 1) 0 0 None None.

(** [semver.Version.parse(version)] for a [str] argument: [re.match] with
    the regular expression of the library, then [int] on the three
    numbers.  What the expression accepts beyond the grammar differs from
    one release to another: in python-semver 3.0 it ends with [$], which
    lets a final line feed pass, and its class of digits holds every
    Unicode decimal digit after the first digit of a number.  The command
    is verified for every parser with the two properties that all
    releases share: the text that [__str__] prints for a version without
    pre-release and build is parsed as that version, and a text that is
    accepted starts with one of the digits [0] to [9]. *)
Class Parser : Type := {
  parse : string -> option Version;
  parse_printed :
    forall ma mi pa : N,
      parse (to_string (mkVersion ma mi pa None None))
      = Some (mkVersion ma mi pa None None);
  parse_leading_digit :
    forall (s : string) (v : Version),
      parse s = Some v ->
      exists c r, s = String c r /\ Str.is_digit c = true
}.

End semver.

(** ** The [tomlkit] library, as an interface *)

Module tomlkit.

(** What [data["project"]["version"]] can be: a TOML string, which is a
    Python [str], or an item of another type (integer, array, table, ...),
    which is not; [text] is what an f-string prints for it. *)
Inductive item : Type :=
| StringItem (s : string)
| OtherItem (text : string).

(** The four calls the command makes.  An exception is [None].
    - [parse text] is [tomlkit.parse(text)];
    - [dumps data] is [tomlkit.dumps(data)];
    - [get_project_version data] is [data["project"]["version"]];
    - [set_project_version data v] is [data] after
      [data["project"]["version"] = v]. *)
Class TomlKit : Type := {
  document : Type;
  parse : string -> option document;
  dumps : document -> option string;
  get_project_version : document -> option item;
  set_project_version : document -> string -> option document
}.

(** [str(item)]. *)
Definition item_text (i : item) : string :=
  match i with
  | StringItem s => s
  | OtherItem t => t
  end.

(** [item != s] for a [str] [s]: an item that is not a string differs from
    every string. *)
Definition item_differs (i : item) (s : string) : bool :=
  match i with
  | StringItem u => negb (String.eqb u s)
  | OtherItem _ => true
  end.

End tomlkit.

(** ** Files, log records and the state of a run *)

(** What is at the path [pyproject.toml]: nothing, something that exists
    but cannot be opened (a directory, a file without permission), or a
    regular file with the text it holds, line endings as they are. *)
Inductive path_state : Type :=
| Missing
| Unopenable
| Regular (readonly : bool) (data : string).

(** Reading in text mode ([open(path, "r")], [newline=None]): the line
    endings CR LF and CR are both read as LF. *)
Fixpoint universal_newlines (s : string) : string :=
  match s with
  | EmptyString => EmptyString
  | String c r =>
      if Ascii.eqb c Str.CR then
        String Str.LF
          match r with
          | EmptyString => EmptyString
          | String c' r' =>
              if Ascii.eqb c' Str.LF then universal_newlines r'
              else universal_newlines r
          end
      else String c (universal_newlines r)
  end.

(** Writing in text mode ([open(path, "w")], [newline=None]): every LF is
    written as [os.linesep]. *)
Fixpoint write_newlines (linesep : string) (s : string) : string :=
  match s with
  | EmptyString => EmptyString
  | String c r =>
      if Ascii.eqb c Str.LF then linesep ++ write_newlines linesep r
      else String c (write_newlines linesep r)
  end.

Inductive level : Type := INFO | ERROR | SUCCESS.

(** The log records of the module, one constructor per call of [logger]. *)
Inductive message : Type :=
| FailedToReadVersion        (* "Failed to read version from pyproject.toml: {e}" *)
| FailedToUpdate             (* "Failed to update pyproject.toml: {e}" *)
| NotFound                   (* "pyproject.toml not found in current directory" *)
| InvalidSemanticVersion (current_version_str : string)
                             (* "Invalid semantic version in pyproject.toml: {...}" *)
| CurrentVersion (current_version_str : string)
                             (* "Current version: {...}" *)
| BumpingUsing (bump_type : string)
                             (* "Bumping version using: {...}" *)
| InvalidVersionFormat (new_version_str : string)
                             (* "Invalid version format: {...}" *)
| PleaseUseValid             (* "Please use a valid semantic version." *)
| NewVersionWillBe (new_version_str : string)
                             (* "New version will be: {...}" *)
| DryRunEnabled              (* "Dry run enabled. Skipping actual changes." *)
| UpdatingPyproject          (* "Updating pyproject.toml..." *)
| UpdateFailed (expected got : string)
                             (* "Version update failed. Expected {...} but got {...}" *)
| VersionBumped (current_version_str new_version_str : string)
                             (* "Version bumped: {...} -> {...} in pyproject.toml" *)
| DontForgetLock.            (* "Don't forget to run 'uv lock' ..." *)

(** What a run does to the outside. *)
Inductive event : Type :=
| PathExists                         (* Path("pyproject.toml").exists() *)
| OpenRead                           (* open("pyproject.toml", "r") *)
| FileWritten (data : string)        (* what f.write has stored in the file *)
| Prompt (title : string) (choices : list string)   (* questionary.select(...).ask() *)
| Log (lvl : level) (msg : message).

(** The state of a run: the file, and the events so far, the latest
    first. *)
Record world : Type := mkWorld {
  pyproject_toml : path_state;
  trace : list event
}.

(** [after w evs]: the state [w] once the events [evs] have happened, in
    that order, and the file is as it was. *)
Definition after (w : world) (evs : list event) : world :=
  mkWorld (pyproject_toml w) (List.rev evs ++ trace w).

(** The state in which a run starts. *)
Definition start (f : path_state) : world := mkWorld f [].

(** Exceptions: [typer.Exit(code)], the [TypeError] of [semver], and any
    other [Exception] (of [open], of [tomlkit], a [KeyError]). *)
Inductive exn : Type :=
| Exit (code : Z)
| TypeError
| OtherException.

Inductive result (A : Type) : Type :=
| Ok (a : A)
| Raise (e : exn).

Arguments Ok {A} a.
Arguments Raise {A} e.

(** A computation: from the state before to a result and the state after. *)
Definition M (A : Type) : Type := world -> result A * world.

Definition ret {A} (a : A) : M A := fun w => (Ok a, w).

Definition bind {A B} (m : M A) (k : A -> M B) : M B :=
  fun w =>
    match m w with
    | (Ok a, w') => k a w'
    | (Raise e, w') => (Raise e, w')
    end.

Definition raise {A} (e : exn) : M A := fun w => (Raise e, w).

(** [try: body / except Exception: handler]: every exception of the model
    is an [Exception]. *)
Definition try_except {A} (body handler : M A) : M A :=
  fun w =>
    match body w with
    | (Ok a, w') => (Ok a, w')
    | (Raise _, w') => handler w'
    end.

Declare Scope monad_scope.
Delimit Scope monad_scope with monad.
Notation "x <- m ;; k" := (bind m (fun x => k))
  (at level 61, m at next level, right associativity) : monad_scope.
Notation "m ;;; k" := (bind m (fun _ => k))
  (at level 61, right associativity) : monad_scope.
Local Open Scope monad_scope.

Definition emit (e : event) : M unit :=
  fun w => (Ok tt, mkWorld (pyproject_toml w) (e :: trace w)).

Definition logger (lvl : level) (msg : message) : M unit := emit (Log lvl msg).

(** Lifting a call that raises ([None]) or returns. *)
Definition call {A} (r : option A) : M A :=
  match r with
  | Some a => ret a
  | None => raise OtherException
  end.

(** [Path("pyproject.toml").exists()]. *)
Definition path_exists : M bool :=
  emit PathExists ;;;
  fun w => (Ok match pyproject_toml w with Missing => false | _ => true end, w).

(** [with open("pyproject.toml", "r") as f: f.read()]. *)
Definition read_text : M string :=
  emit OpenRead ;;;
  fun w =>
    match pyproject_toml w with
    | Regular _ data => (Ok (universal_newlines data), w)
    | _ => (Raise OtherException, w)
    end.

(** [open("pyproject.toml", "w")]: it fails, and nothing has changed, on
    what cannot be opened and on a read-only file; otherwise the file is
    there and empty from then on, whatever follows. *)
Definition open_write : M unit :=
  fun w =>
    match pyproject_toml w with
    | Unopenable | Regular true _ => (Raise OtherException, w)
    | Missing | Regular false _ => (Ok tt, mkWorld (Regular false "") (trace w))
    end.

(** The encoding of text files on the platform: [encodable text] tells
    whether [f.write(text)] can encode [text]; where it cannot, it raises
    [UnicodeEncodeError]. *)
Class Encoding : Type := {
  encodable : string -> bool
}.

(** An encoding that has every character, as UTF-8 has, and one that has
    the ASCII characters only. *)
#[global] Instance utf8 : Encoding := {|
  encodable := fun _ => true
|}.

Definition ascii_only : Encoding := {|
  encodable := Str.all (fun c => Nat.ltb (Ascii.nat_of_ascii c) 128)
|}.

(** ** The module [rhiza_tools.commands.bump] *)

Section Bump.

(** The parser of [semver], the TOML library, the encoding and the line
    separator of the platform ([os.linesep]), and the user at the prompt:
    [ask title choices] is what
    [questionary.select(title, choices=choices).ask()] returns, one of the
    choices or [None]. *)
Context {parser : semver.Parser}.
Context {toml : tomlkit.TomlKit}.
Context {encoding : Encoding}.
Variable linesep : string.
Variable ask : string -> list string -> option string.

(** [f.write(text)] on the file opened by [open_write], and the end of the
    [with] block, which closes the file: the text is stored with every LF
    written as [os.linesep], or cannot be encoded and nothing is stored.
    A failure of the operating system while it stores the text is not
    modelled. *)
Definition file_write (text : string) : M unit :=
  fun w =>
    if encodable text then
      let data := write_newlines linesep text in
      (Ok tt, mkWorld (Regular false data) (FileWritten data :: trace w))
    else (Raise OtherException, w).

(** [questionary.select(title, choices=choices).ask()]. *)
Definition questionary_select (title : string) (choices : list string)
  : M (option string) :=
  emit (Prompt title choices) ;;;
  ret (ask title choices).

(** Lines 11-19. *)
Definition get_current_version : M tomlkit.item :=
  try_except
    (text <- read_text ;;
     data <- call (tomlkit.parse text) ;;
     call (tomlkit.get_project_version data))
    (logger ERROR FailedToReadVersion ;;;
     raise (Exit 1)).

(** Lines 21-34.  The file is opened for writing, which empties it, before
    [tomlkit.dumps] and [f.write] run. *)
Definition update_version (new_version : string) : M unit :=
  try_except
    (text <- read_text ;;
     data <- call (tomlkit.parse text) ;;
     data <- call (tomlkit.set_project_version data new_version) ;;
     open_write ;;;
     text <- call (tomlkit.dumps data) ;;
     file_write text)
    (logger ERROR FailedToUpdate ;;;
     raise (Exit 1)).

(** [if version:] for an [Optional[str]]. *)
Definition given (version : option string) : bool :=
  match version with
  | Some s => Str.truthy s
  | None => false
  end.

Definition or_empty (version : option string) : string :=
  match version with
  | Some s => s
  | None => EmptyString
  end.

(** [version in ["patch", "minor", "major"]]. *)
Definition is_keyword (version : string) : bool :=
  existsb (String.eqb version) ["patch"; "minor"; "major"].

(** Lines 36-128. *)
Definition bump_command (version : option string) (dry_run : bool) : M unit :=
  (* Check if pyproject.toml exists *)
  found <- path_exists ;;
  if negb found then
    logger ERROR NotFound ;;;
    raise (Exit 1)
  else
  (* Get current version *)
  current_version_item <- get_current_version ;;
  cur <- match current_version_item with
         | tomlkit.StringItem current_version_str =>
             match semver.parse current_version_str with
             | Some current_version => ret (current_version_str, current_version)
             | None =>
                 logger ERROR (InvalidSemanticVersion current_version_str) ;;;
                 raise (Exit 1)
             end
         | tomlkit.OtherItem _ => raise TypeError
         end ;;
  let (current_version_str, current_version) := cur : string * semver.Version in
  logger INFO (CurrentVersion current_version_str) ;;;
  target <-
    (if given version then
       (* If version argument is provided *)
       let version := or_empty version in
       if is_keyword version then
         ret (version, "")
       else
         (* Explicit version; strip 'v' prefix *)
         let version :=
           if Str.startswith version "v" then Str.tail version else version in
         ret ("", version)
     else
       (* Interactive mode *)
       let next_patch := semver.bump_patch current_version in
       let next_minor := semver.bump_minor current_version in
       let next_major := semver.bump_major current_version in
       choice <- questionary_select
         ("Select bump type (Current: " ++ current_version_str ++ ")")
         [ "Patch (" ++ current_version_str ++ " -> " ++ semver.to_string next_patch ++ ")";
           "Minor (" ++ current_version_str ++ " -> " ++ semver.to_string next_minor ++ ")";
           "Major (" ++ current_version_str ++ " -> " ++ semver.to_string next_major ++ ")" ] ;;
       if negb (given choice) then
         raise (Exit 0)
       else
         let choice := or_empty choice in
         ret (if Str.startswith choice "Patch" then "patch"
              else if Str.startswith choice "Minor" then "minor"
              else if Str.startswith choice "Major" then "major"
              else "",
              "")) ;;
  let (bump_type, new_version_str) := target : string * string in
  (* Calculate/Validate new version *)
  new_version_str <-
    (if Str.truthy bump_type then
       logger INFO (BumpingUsing bump_type) ;;;
       ret (if String.eqb bump_type "patch" then
              semver.to_string (semver.bump_patch current_version)
            else if String.eqb bump_type "minor" then
              semver.to_string (semver.bump_minor current_version)
            else if String.eqb bump_type "major" then
              semver.to_string (semver.bump_major current_version)
            else new_version_str)
     else
       (* Validate explicit version *)
       match semver.parse new_version_str with
       | Some _ => ret new_version_str
       | None =>
           logger ERROR (InvalidVersionFormat new_version_str) ;;;
           logger ERROR PleaseUseValid ;;;
           raise (Exit 1)
       end) ;;
  logger INFO (NewVersionWillBe new_version_str) ;;;
  if dry_run then
    logger INFO DryRunEnabled
  else
  (* Update version in pyproject.toml *)
  logger INFO UpdatingPyproject ;;;
  update_version new_version_str ;;;
  (* Verify the update *)
  updated_version <- get_current_version ;;
  if tomlkit.item_differs updated_version new_version_str then
    logger ERROR (UpdateFailed new_version_str (tomlkit.item_text updated_version)) ;;;
    raise (Exit 1)
  else
  logger SUCCESS (VersionBumped current_version_str new_version_str) ;;;
  logger INFO DontForgetLock.

(** What [get_current_version] finds in a file, and what
    [update_version] stores in it; [None] where they raise. *)
Definition stored_version (f : path_state) : option tomlkit.item :=
  match f with
  | Regular _ data =>
      match tomlkit.parse (universal_newlines data) with
      | Some doc => tomlkit.get_project_version doc
      | None => None
      end
  | _ => None
  end.

Definition rewritten (f : path_state) (new_version : string) : option string :=
  match f with
  | Regular false data =>
      match tomlkit.parse (universal_newlines data) with
      | Some doc =>
          match tomlkit.set_project_version doc new_version with
          | Some doc' =>
              match tomlkit.dumps doc' with
              | Some text =>
                  if encodable text then Some (write_newlines linesep text)
                  else None
              | None => None
              end
          | None => None
          end
      | None => None
      end
  | _ => None
  end.

(** Whether [update_version] gets as far as opening the file for writing,
    and opens it: the file is a writable regular file, its text parses and
    the version can be set.  From then on the old content is gone. *)
Definition opened_for_writing (f : path_state) (new_version : string) : bool :=
  match f with
  | Regular false data =>
      match tomlkit.parse (universal_newlines data) with
      | Some doc =>
          match tomlkit.set_project_version doc new_version with
          | Some _ => true
          | None => false
          end
      | None => false
      end
  | _ => false
  end.

(** The file that an [update_version] that fails leaves behind: the file
    as it was, or an empty file when the failure comes after the file was
    opened for writing. *)
Definition after_failed_update (f : path_state) (new_version : string) : path_state :=
  if opened_for_writing f new_version then Regular false "" else f.

(** Lines 113-128 of [bump_command] on their own: what the command does
    once it has announced the new version. *)
Definition finish (dry_run : bool) (current_version_str new_version_str : string)
  : M unit :=
  if dry_run then
    logger INFO DryRunEnabled
  else
  logger INFO UpdatingPyproject ;;;
  update_version new_version_str ;;;
  updated_version <- get_current_version ;;
  if tomlkit.item_differs updated_version new_version_str then
    logger ERROR (UpdateFailed new_version_str (tomlkit.item_text updated_version)) ;;;
    raise (Exit 1)
  else
  logger SUCCESS (VersionBumped current_version_str new_version_str) ;;;
  logger INFO DontForgetLock.

(** The title and the choices of the prompt (lines 75-79). *)
Definition select_title (current_version_str : string) : string :=
  "Select bump type (Current: " ++ current_version_str ++ ")".

Definition select_choices (current_version_str : string)
    (current_version : semver.Version) : list string :=
  [ "Patch (" ++ current_version_str ++ " -> "
      ++ semver.to_string (semver.bump_patch current_version) ++ ")";
    "Minor (" ++ current_version_str ++ " -> "
      ++ semver.to_string (semver.bump_minor current_version) ++ ")";
    "Major (" ++ current_version_str ++ " -> "
      ++ semver.to_string (semver.bump_major current_version) ++ ")" ].

(** The explicit version of a positional argument (lines 65-67). *)
Definition strip_v (version : string) : string :=
  if Str.startswith version "v" then Str.tail version else version.

(** The bump type of a choice of the prompt (lines 86-91). *)
Definition choice_bump_type (choice : string) : string :=
  if Str.startswith choice "Patch" then "patch"
  else if Str.startswith choice "Minor" then "minor"
  else if Str.startswith choice "Major" then "major"
  else "".

(** The version a bump type stands for (lines 96-101). *)
Definition bumped (bump_type : string) (v : semver.Version) : semver.Version :=
  if String.eqb bump_type "patch" then semver.bump_patch v
  else if String.eqb bump_type "minor" then semver.bump_minor v
  else semver.bump_major v.

(** The events before the new version is announced. *)
Definition preliminary (e : event) : bool :=
  match e with
  | PathExists | OpenRead | Prompt _ _ => true
  | Log INFO (CurrentVersion _) | Log INFO (BumpingUsing _) => true
  | _ => false
  end.

(** The ways the command stops before it announces a new version, each
    with its exception and the events of the run:
    the manifest is missing; it cannot be read, or parsed, or has no
    [project.version]; the version is not a string; it is not a semantic
    version; the explicit version is not a semantic version; the user
    declines the prompt. *)
Inductive stop : exn -> list event -> Prop :=
| ManifestNotFound :
    stop (Exit 1) [PathExists; Log ERROR NotFound]
| ManifestParseError :
    stop (Exit 1) [PathExists; OpenRead; Log ERROR FailedToReadVersion]
| VersionNotText :
    stop TypeError [PathExists; OpenRead]
| VersionParseError cur :
    stop (Exit 1) [PathExists; OpenRead; Log ERROR (InvalidSemanticVersion cur)]
| InvalidExplicit cur s :
    stop (Exit 1) [PathExists; OpenRead; Log INFO (CurrentVersion cur);
                   Log ERROR (InvalidVersionFormat s); Log ERROR PleaseUseValid]
| InvalidChoice cur title choices s :
    stop (Exit 1) [PathExists; OpenRead; Log INFO (CurrentVersion cur);
                   Prompt title choices;
                   Log ERROR (InvalidVersionFormat s); Log ERROR PleaseUseValid]
| OperationCancelled cur title choices :
    ask title choices = None \/ ask title choices = Some "" ->
    stop (Exit 0) [PathExists; OpenRead; Log INFO (CurrentVersion cur);
                   Prompt title choices].

(** What the command has done when it reaches line 113: it has stopped, the
    same way with and without [dry_run], or it has announced a new version
    [X], which [semver] accepts, and goes on with [finish]. *)
Inductive plan (version : option string) (w : world) : Prop :=
| Stops e evs :
    stop e evs ->
    (forall dry_run, bump_command version dry_run w = (Raise e, after w evs)) ->
    plan version w
| Announces cur X evs :
    forallb preliminary evs = true ->
    semver.parse X <> None ->
    (forall dry_run,
        bump_command version dry_run w
        = finish dry_run cur X (after w (evs ++ [Log INFO (NewVersionWillBe X)]))) ->
    plan version w.

(** The ways a whole run ends, each with its result, the file it leaves
    and its events in order, for a run that starts at the file [f]:
    an early stop; a dry run done; the update failed, which leaves the
    file as it was or empty; the file written cannot be read back; the
    version read back is not the one written; the version is bumped. *)
Inductive ending (f : path_state) : bool -> result unit -> path_state -> list event -> Prop :=
| Stopped dry_run e evs :
    stop e evs ->
    ending f dry_run (Raise e) f evs
| DryRunDone X evs :
    forallb preliminary evs = true ->
    semver.parse X <> None ->
    ending f true (Ok tt) f
      (evs ++ [Log INFO (NewVersionWillBe X); Log INFO DryRunEnabled])
| WriteFailure X evs :
    forallb preliminary evs = true ->
    semver.parse X <> None ->
    rewritten f X = None ->
    ending f false (Raise (Exit 1)) (after_failed_update f X)
      (evs ++ [Log INFO (NewVersionWillBe X); Log INFO UpdatingPyproject;
               OpenRead; Log ERROR FailedToUpdate])
| RereadFailure X evs data :
    forallb preliminary evs = true ->
    semver.parse X <> None ->
    rewritten f X = Some data ->
    stored_version (Regular false data) = None ->
    ending f false (Raise (Exit 1)) (Regular false data)
      (evs ++ [Log INFO (NewVersionWillBe X); Log INFO UpdatingPyproject;
               OpenRead; FileWritten data; OpenRead;
               Log ERROR FailedToReadVersion])
| VerificationFailed X evs data it :
    forallb preliminary evs = true ->
    semver.parse X <> None ->
    rewritten f X = Some data ->
    stored_version (Regular false data) = Some it ->
    it <> tomlkit.StringItem X ->
    ending f false (Raise (Exit 1)) (Regular false data)
      (evs ++ [Log INFO (NewVersionWillBe X); Log INFO UpdatingPyproject;
               OpenRead; FileWritten data; OpenRead;
               Log ERROR (UpdateFailed X (tomlkit.item_text it))])
| Done cur X evs data :
    forallb preliminary evs = true ->
    semver.parse X <> None ->
    rewritten f X = Some data ->
    stored_version (Regular false data) = Some (tomlkit.StringItem X) ->
    ending f false (Ok tt) (Regular false data)
      (evs ++ [Log INFO (NewVersionWillBe X); Log INFO UpdatingPyproject;
               OpenRead; FileWritten data; OpenRead;
               Log SUCCESS (VersionBumped cur X); Log INFO DontForgetLock]).

(** *** The command as a table

    The state machine of the specification, Start, ReadCurrent,
    DetermineTarget, ValidateTarget, then DryRunExit or Write, Verify and
    Done, written as a function of the inputs of a run: the argument, the
    flag, the file found, and the answer of the user. *)

(** DetermineTarget and ValidateTarget, for the current version [cur],
    parsed as [v]: the user has declined; the text [s] is rejected; the
    version [X] is the target.  Each comes with the events of the step. *)
Inductive target : Type :=
| Declined (evs : list event)
| Rejected (evs : list event) (s : string)
| Accepted (evs : list event) (X : string).

Definition determine_target (version : option string)
    (cur : string) (v : semver.Version) : target :=
  if given version then
    let a := or_empty version in
    if is_keyword a then
      Accepted [Log INFO (BumpingUsing a)] (semver.to_string (bumped a v))
    else
      match semver.parse (strip_v a) with
      | Some _ => Accepted [] (strip_v a)
      | None => Rejected [] (strip_v a)
      end
  else
    let prompt := Prompt (select_title cur) (select_choices cur v) in
    match ask (select_title cur) (select_choices cur v) with
    | Some choice =>
        if negb (Str.truthy choice) then Declined [prompt]
        else if Str.truthy (choice_bump_type choice) then
          Accepted [prompt; Log INFO (BumpingUsing (choice_bump_type choice))]
            (semver.to_string (bumped (choice_bump_type choice) v))
        else Rejected [prompt] ""
    | None => Declined [prompt]
    end.

(** Write and Verify, for the target [X]. *)
Definition write_and_verify (f : path_state) (cur X : string)
  : result unit * path_state * list event :=
  match rewritten f X with
  | None =>
      (Raise (Exit 1), after_failed_update f X,
       [Log INFO UpdatingPyproject; OpenRead; Log ERROR FailedToUpdate])
  | Some data =>
      let written := [Log INFO UpdatingPyproject; OpenRead; FileWritten data; OpenRead] in
      match stored_version (Regular false data) with
      | None =>
          (Raise (Exit 1), Regular false data,
           written ++ [Log ERROR FailedToReadVersion])
      | Some it =>
          if tomlkit.item_differs it X then
            (Raise (Exit 1), Regular false data,
             written ++ [Log ERROR (UpdateFailed X (tomlkit.item_text it))])
          else
            (Ok tt, Regular false data,
             written ++ [Log SUCCESS (VersionBumped cur X); Log INFO DontForgetLock])
      end
  end%list.

(** The result of a run, the file it leaves and its events in order. *)
Definition expected (version : option string) (dry_run : bool) (f : path_state)
  : result unit * path_state * list event :=
  match f with
  | Missing => (Raise (Exit 1), f, [PathExists; Log ERROR NotFound])
  | _ =>
      match stored_version f with
      | None =>
          (Raise (Exit 1), f, [PathExists; OpenRead; Log ERROR FailedToReadVersion])
      | Some (tomlkit.OtherItem _) =>
          (Raise TypeError, f, [PathExists; OpenRead])
      | Some (tomlkit.StringItem cur) =>
          match semver.parse cur with
          | None =>
              (Raise (Exit 1), f,
               [PathExists; OpenRead; Log ERROR (InvalidSemanticVersion cur)])
          | Some v =>
              let read := [PathExists; OpenRead; Log INFO (CurrentVersion cur)] in
              match determine_target version cur v with
              | Declined evs => (Raise (Exit 0), f, read ++ evs)
              | Rejected evs s =>
                  (Raise (Exit 1), f,
                   read ++ evs ++ [Log ERROR (InvalidVersionFormat s);
                                   Log ERROR PleaseUseValid])
              | Accepted evs X =>
                  let announced := read ++ evs ++ [Log INFO (NewVersionWillBe X)] in
                  if dry_run then
                    (Ok tt, f, announced ++ [Log INFO DryRunEnabled])
                  else
                    let '(r, f', evs') := write_and_verify f cur X in
                    (r, f', announced ++ evs')
              end
          end
      end
  end%list.

End Bump.

(** The exit status of the process that runs a command: zero when it
    returns, the code of [typer.Exit], and 1 when an exception reaches the
    top of the interpreter. *)
Definition exit_status {A} (r : result A) : Z :=
  match r with
  | Ok _ => 0
  | Raise (Exit code) => code
  | Raise _ => 1
  end.




(** ** Observations on runs *)

(** The events of a run in the order in which they happened. *)
Definition history (w : world) : list event := List.rev (trace w).

Definition is_write (e : event) : bool :=
  match e with FileWritten _ => true | _ => false end.

Definition is_prompt (e : event) : bool :=
  match e with Prompt _ _ => true | _ => false end.

Definition is_error (e : event) : bool :=
  match e with Log ERROR _ => true | _ => false end.

(** [errors_last evs]: from the first error record on, every event of
    [evs] is an error record. *)
Fixpoint errors_last (evs : list event) : bool :=
  match evs with
  | [] => true
  | e :: rest => if is_error e then forallb is_error rest else errors_last rest
  end.

(** Two files that text-mode reading cannot tell apart: both missing, both
    unopenable, or regular files, both read-only or both writable, whose
    texts differ in the line endings only. *)
Definition same_reading (f1 f2 : path_state) : Prop :=
  match f1, f2 with
  | Missing, Missing => True
  | Unopenable, Unopenable => True
  | Regular ro1 data1, Regular ro2 data2 =>
      ro1 = ro2 /\ universal_newlines data1 = universal_newlines data2
  | _, _ => False
  end.

(** Two states of two runs, one started at the file [f1] and one at the
    file [f2]: the same events so far, and files that are still [f1] and
    [f2] or have become the same file; and a computation that cannot tell
    such states apart. *)
Definition alike (f1 f2 : path_state) (w1 w2 : world) : Prop :=
  trace w1 = trace w2
  /\ ((pyproject_toml w1 = f1 /\ pyproject_toml w2 = f2)
      \/ pyproject_toml w1 = pyproject_toml w2).

Definition respects (f1 f2 : path_state) {A} (m : M A) : Prop :=
  forall w1 w2, alike f1 f2 w1 w2 ->
    fst (m w1) = fst (m w2) /\ alike f1 f2 (snd (m w1)) (snd (m w2)).

(** The order of versions by their numbers: major, then minor, then
    patch. *)
Definition core_lt (v v' : semver.Version) : Prop :=
  (semver.major v < semver.major v')%N
  \/ (semver.major v = semver.major v' /\ (semver.minor v < semver.minor v')%N)
  \/ (semver.major v = semver.major v' /\ semver.minor v = semver.minor v'
      /\ (semver.patch v < semver.patch v')%N).

(** ** A small TOML library

    An implementation of the interface for the documents that consist of a
    [[project]] table with a [version] key whose value is a basic string,
    on one line, with the escapes of TOML for the line feed, the carriage
    return, the tab, the backslash and the quote.  It keeps the text
    around the value as it is, which is what tomlkit does on such
    documents.  It serves to run the command on concrete inputs. *)

Module MiniToml.

Definition quote : ascii := Ascii.ascii_of_nat 34.
Definition backslash : ascii := Ascii.ascii_of_nat 92.
Definition TAB : ascii := Ascii.ascii_of_nat 9.

Record doc : Type := mkDoc {
  before : string;      (* the text up to the key *)
  value : string;       (* the text of the version, between the quotes *)
  after : string        (* the text after the closing quote *)
}.

(** [strip_prefix p s]: what follows [p] in [s], when [s] starts with [p]. *)
Fixpoint strip_prefix (p s : string) : option string :=
  match p with
  | EmptyString => Some s
  | String a p' =>
      match s with
      | EmptyString => None
      | String b s' => if Ascii.eqb a b then strip_prefix p' s' else None
      end
  end.

(** [cut m s]: the text before and after the first occurrence of [m]. *)
Fixpoint cut (m s : string) {struct s} : option (string * string) :=
  match strip_prefix m s with
  | Some rest => Some (EmptyString, rest)
  | None =>
      match s with
      | EmptyString => None
      | String c r =>
          match cut m r with
          | Some (a, b) => Some (String c a, b)
          | None => None
          end
      end
  end.

Definition key : string := "version = " ++ String quote EmptyString.

(** [basic_string s]: the text of a basic string up to its closing quote,
    and what follows that quote.  A backslash takes the next character
    with it; the string ends on its line. *)
Fixpoint basic_string (s : string) : option (string * string) :=
  match s with
  | EmptyString => None
  | String c r =>
      if Ascii.eqb c quote then Some (EmptyString, r)
      else if Ascii.eqb c backslash then
        match r with
        | EmptyString => None
        | String c' r' =>
            match basic_string r' with
            | Some (v, a) => Some (String c (String c' v), a)
            | None => None
            end
        end
      else if Ascii.eqb c Str.LF || Ascii.eqb c Str.CR then None
      else
        match basic_string r with
        | Some (v, a) => Some (String c v, a)
        | None => None
        end
  end.

(** The string that the text of a basic string stands for, and the text
    that stands for a string. *)
Fixpoint unescape (s : string) : option string :=
  match s with
  | EmptyString => Some EmptyString
  | String c r =>
      if Ascii.eqb c backslash then
        match r with
        | EmptyString => None
        | String c' r' =>
            match
              (if Ascii.eqb c' "n" then Some Str.LF
               else if Ascii.eqb c' "r" then Some Str.CR
               else if Ascii.eqb c' "t" then Some TAB
               else if Ascii.eqb c' backslash || Ascii.eqb c' quote then Some c'
               else None),
              unescape r'
            with
            | Some x, Some u => Some (String x u)
            | _, _ => None
            end
        end
      else option_map (String c) (unescape r)
  end.

Fixpoint escape (s : string) : string :=
  match s with
  | EmptyString => EmptyString
  | String c r =>
      if Ascii.eqb c Str.LF then String backslash (String "n" (escape r))
      else if Ascii.eqb c Str.CR then String backslash (String "r" (escape r))
      else if Ascii.eqb c TAB then String backslash (String "t" (escape r))
      else if Ascii.eqb c backslash || Ascii.eqb c quote
      then String backslash (String c (escape r))
      else String c (escape r)
  end.

Definition parse (text : string) : option doc :=
  if Str.startswith text "[project]" then
    match cut key text with
    | Some (b, rest) =>
        match basic_string rest with
        | Some (v, a) =>
            match unescape v with
            | Some _ => Some (mkDoc b v a)
            | None => None
            end
        | None => None
        end
    | None => None
    end
  else None.

Definition dumps (d : doc) : string :=
  before d ++ key ++ value d ++ String quote (after d).

Definition get_project_version (d : doc) : option tomlkit.item :=
  option_map tomlkit.StringItem (unescape (value d)).

#[global] Instance kit : tomlkit.TomlKit := {
  tomlkit.document := doc;
  tomlkit.parse := parse;
  tomlkit.dumps := fun d => Some (dumps d);
  tomlkit.get_project_version := get_project_version;
  tomlkit.set_project_version := fun d v => Some (mkDoc (before d) (escape v) (after d))
}.

(** A faulty library: setting the version has no effect. *)
Definition lossy : tomlkit.TomlKit := {|
  tomlkit.document := doc;
  tomlkit.parse := parse;
  tomlkit.dumps := fun d => Some (dumps d);
  tomlkit.get_project_version := get_project_version;
  tomlkit.set_project_version := fun d v => Some d
|}.

(** A faulty library: the document cannot be serialised. *)
Definition mute : tomlkit.TomlKit := {|
  tomlkit.document := doc;
  tomlkit.parse := parse;
  tomlkit.dumps := fun d => None;
  tomlkit.get_project_version := get_project_version;
  tomlkit.set_project_version := fun d v => Some (mkDoc (before d) (escape v) (after d))
|}.

(** A manifest whose version has the given text between the quotes; [eol]
    ends its lines. *)
Definition manifest (eol version : string) : string :=
  "[project]" ++ eol ++ "name = " ++ String quote ("demo" ++ String quote (eol
  ++ key ++ version ++ String quote eol)).

Definition lf : string := String Str.LF EmptyString.

(** A user who never answers, and users who pick the n-th choice. *)
Definition silent (title : string) (choices : list string) : option string := None.

Definition picks (n : nat) (title : string) (choices : list string) : option string :=
  nth_error choices n.

(** The state of a run in a project at the given version, with LF line
    endings. *)
Definition project (version : string) : world :=
  start (Regular false (manifest lf version)).

End MiniToml.


(** * Properties *)

(** ** Strings *)

Lemma append_empty_r (s : string) : s ++ "" = s.
Proof. induction s as [|c s IH]; simpl; [reflexivity | now rewrite IH]. Qed.

Lemma all_append p (a b : string) :
  Str.all p (a ++ b) = Str.all p a && Str.all p b.
Proof.
  induction a as [|c a IH]; simpl; [reflexivity|].
  now rewrite IH, andb_assoc.
Qed.

Lemma all_weaken (p q : ascii -> bool) (s : string) :
  (forall c, p c = true -> q c = true) ->
  Str.all p s = true -> Str.all q s = true.
Proof.
  intros Hpq. induction s as [|c s IH]; simpl; [reflexivity|].
  intros [Hc Hs]%andb_prop. rewrite (Hpq _ Hc). now apply IH.
Qed.

(** A run of characters that satisfy [p], followed by a character that
    does not, is what [span] cuts off. *)
Lemma span_stops p (a : string) (c : ascii) (b : string) :
  Str.all p a = true -> p c = false ->
  Str.span p (a ++ String c b) = (a, String c b).
Proof.
  intros Ha Hc. induction a as [|x a IH]; simpl in *.
  - now rewrite Hc.
  - apply andb_prop in Ha as [Hx Ha]. now rewrite Hx, (IH Ha).
Qed.

Lemma span_whole p (a : string) :
  Str.all p a = true -> Str.span p a = (a, "").
Proof.
  induction a as [|x a IH]; simpl; [reflexivity|].
  intros [Hx Ha]%andb_prop. now rewrite Hx, (IH Ha).
Qed.

(** ** The [semver] model *)

Lemma digits_of_uint (d : uint) :
  Str.all Str.is_digit (NilEmpty.string_of_uint d) = true.
Proof. induction d; simpl; auto. Qed.

Lemma digits_decimal (n : N) : Str.all Str.is_digit (semver.decimal n) = true.
Proof. apply digits_of_uint. Qed.

Lemma unorm_to_uint (n : N) : unorm (N.to_uint n) = N.to_uint n.
Proof.
  rewrite <- (DecimalN.Unsigned.of_to n) at 2.
  now rewrite DecimalN.Unsigned.to_of.
Qed.

(** A decimal numeral printed by ["%d"] is read back as the same number:
    it is not empty and has no leading zero. *)
Lemma numeric_decimal (n : N) : semver.numeric (semver.decimal n) = Some n.
Proof.
  unfold semver.decimal.
  pose proof (unorm_to_uint n) as Hn.
  assert (Hval : option_map N.of_uint
            (NilEmpty.uint_of_string (NilEmpty.string_of_uint (N.to_uint n)))
          = Some n).
  { rewrite NilEmpty.usu. simpl. now rewrite DecimalN.Unsigned.of_to. }
  destruct (N.to_uint n) as [|d|d|d|d|d|d|d|d|d|d] eqn:E;
    try (simpl in *; exact Hval).
  - discriminate Hn.
  - destruct d as [|d|d|d|d|d|d|d|d|d|d]; try exact Hval;
      exfalso; rewrite unorm_D0 in Hn;
      match type of Hn with
      | unorm ?u = _ =>
          assert (Hu : u <> Nil) by discriminate;
          pose proof (nb_digits_unorm u Hu) as Hlen;
          rewrite Hn in Hlen; simpl in Hlen; lia
      end.
Qed.

Lemma drop_final_newline_id (s : string) :
  Str.all (fun c => negb (Ascii.eqb c Str.LF)) s = true ->
  semver.drop_final_newline s = s.
Proof.
  induction s as [|c s IH]; simpl; [reflexivity|].
  intros [Hc Hs]%andb_prop. destruct s as [|c' s'].
  - apply negb_true_iff in Hc. now rewrite Hc.
  - now rewrite (IH Hs).
Qed.

Lemma digit_not_newline (c : ascii) :
  Str.is_digit c = true -> negb (Ascii.eqb c Str.LF) = true.
Proof. destruct c as [[] [] [] [] [] [] [] []]; vm_compute; congruence. Qed.

(** A version printed without pre-release and build is a text of the
    grammar, for that version; it starts with a digit and has no line
    feed. *)
Lemma match_printed (ma mi pa : N) :
  semver.match_version (semver.to_string (semver.mkVersion ma mi pa None None))
  = Some (semver.mkVersion ma mi pa None None).
Proof.
  unfold semver.to_string, semver.match_version; simpl.
  rewrite append_empty_r.
  rewrite span_stops by (auto using digits_decimal).
  rewrite numeric_decimal.
  rewrite span_stops by (auto using digits_decimal).
  rewrite numeric_decimal.
  rewrite span_whole by apply digits_decimal.
  now rewrite numeric_decimal.
Qed.

Lemma printed_no_newline (ma mi pa : N) :
  semver.drop_final_newline (semver.to_string (semver.mkVersion ma mi pa None None))
  = semver.to_string (semver.mkVersion ma mi pa None None).
Proof.
  assert (Hd : forall n, Str.all (fun c => negb (Ascii.eqb c Str.LF))
                           (semver.decimal n) = true).
  { intros n. eapply all_weaken; [apply digit_not_newline | apply digits_decimal]. }
  apply drop_final_newline_id. unfold semver.to_string; simpl.
  rewrite append_empty_r.
  rewrite all_append, Hd; simpl. rewrite all_append, Hd; simpl. apply Hd.
Qed.

(** A text of the grammar, with or without a final line feed, starts with
    a digit. *)
Lemma match_leading_digit (s : string) (v : semver.Version) :
  semver.match_version (semver.drop_final_newline s) = Some v ->
  exists c r, s = String c r /\ Str.is_digit c = true.
Proof.
  destruct s as [|c r]; [discriminate|].
  destruct (Str.is_digit c) eqn:Hc; [eauto|].
  unfold semver.match_version. destruct r as [|c' r'].
  - simpl. destruct (Ascii.eqb c Str.LF); simpl; [discriminate|].
    rewrite Hc. discriminate.
  - change (semver.drop_final_newline (String c (String c' r')))
      with (String c (semver.drop_final_newline (String c' r'))).
    simpl Str.span. rewrite Hc. discriminate.
Qed.

Lemma grammar_leading_digit (s : string) (v : semver.Version) :
  semver.match_version s = Some v ->
  exists c r, s = String c r /\ Str.is_digit c = true.
Proof.
  destruct s as [|c r]; [discriminate|].
  destruct (Str.is_digit c) eqn:Hc; [eauto|].
  unfold semver.match_version. simpl Str.span. rewrite Hc. discriminate.
Qed.

(** The parser of python-semver 3.0, on texts whose digits are ASCII: the
    regular expression of the library is the grammar, and its [$] lets a
    final line feed pass. *)
#[global] Instance semver_3_0 : semver.Parser := {|
  semver.parse := fun version =>
    semver.match_version (semver.drop_final_newline version);
  semver.parse_printed := fun ma mi pa =>
    eq_trans (f_equal semver.match_version (printed_no_newline ma mi pa))
             (match_printed ma mi pa);
  semver.parse_leading_digit := match_leading_digit
|}.

(** A parser that accepts the texts of the grammar and nothing else, as a
    regular expression that ends at the very end of the text does. *)
Definition semver_grammar : semver.Parser := {|
  semver.parse := semver.match_version;
  semver.parse_printed := match_printed;
  semver.parse_leading_digit := grammar_leading_digit
|}.

Lemma digit_not_v (c : ascii) (r : string) :
  Str.is_digit c = true -> Str.startswith (String c r) "v" = false.
Proof. destruct c as [[] [] [] [] [] [] [] []]; vm_compute; congruence. Qed.

Lemma digit_not_keyword (c : ascii) (r : string) :
  Str.is_digit c = true -> is_keyword (String c r) = false.
Proof.
  destruct c as [[] [] [] [] [] [] [] []]; intros H;
    vm_compute in H; try discriminate H; reflexivity.
Qed.

(** ** Line endings on the way to the file *)





(** ** The steps of the command *)

Section Runs.

Context {parser : semver.Parser}.
Context {toml : tomlkit.TomlKit}.
Context {encoding : Encoding}.
Variable linesep : string.
Variable ask : string -> list string -> option string.

(** [get_current_version] returns what the file holds and logs an error
    and exits otherwise; it never changes the file. *)
Lemma get_current_version_eq (w : world) :
  get_current_version w =
  match stored_version (pyproject_toml w) with
  | Some it => (Ok it, after w [OpenRead])
  | None => (Raise (Exit 1), after w [OpenRead; Log ERROR FailedToReadVersion])
  end.
Proof.
  destruct w as [f t]. unfold get_current_version, try_except, bind, read_text, emit, call.
  destruct f as [| |ro data]; simpl; try reflexivity.
  destruct (tomlkit.parse (universal_newlines data)) as [doc|]; simpl; [|reflexivity].
  destruct (tomlkit.get_project_version doc); reflexivity.
Qed.

(** [update_version] stores the document with the version set, or logs an
    error and exits; the file is then as it was, or empty when it had been
    opened for writing. *)
Lemma update_version_eq (new_version : string) (w : world) :
  update_version linesep new_version w =
  match rewritten linesep (pyproject_toml w) new_version with
  | Some data =>
      (Ok tt, mkWorld (Regular false data) (FileWritten data :: OpenRead :: trace w))
  | None =>
      (Raise (Exit 1),
       mkWorld (after_failed_update (pyproject_toml w) new_version)
         (Log ERROR FailedToUpdate :: OpenRead :: trace w))
  end.
Proof.
  destruct w as [f t].
  unfold update_version, try_except, bind, read_text, open_write, file_write,
    emit, call, after_failed_update.
  destruct f as [| |ro data]; simpl; try reflexivity.
  destruct (tomlkit.parse (universal_newlines data)) as [doc|]; simpl.
  - destruct (tomlkit.set_project_version doc new_version) as [doc'|]; simpl;
      destruct ro; try reflexivity.
    destruct (tomlkit.dumps doc') as [text|]; simpl; [|reflexivity].
    destruct (encodable text); reflexivity.
  - destruct ro; reflexivity.
Qed.

#[local] Arguments get_current_version : simpl never.
#[local] Arguments update_version : simpl never.
#[local] Arguments stored_version : simpl never.
#[local] Arguments rewritten : simpl never.
#[local] Arguments after_failed_update : simpl never.
#[local] Arguments semver.parse : simpl never.
#[local] Arguments semver.to_string : simpl never.
#[local] Arguments String.append : simpl never.

#[local] Arguments given : simpl never.
#[local] Arguments is_keyword : simpl never.
#[local] Arguments Str.startswith : simpl never.

(** The empty text is no version. *)
Lemma parse_empty : semver.parse "" = None.
Proof.
  destruct (semver.parse "") as [v|] eqn:E; [|reflexivity].
  destruct (semver.parse_leading_digit _ _ E) as (c & r & H & _). discriminate H.
Qed.

Lemma stored_exists (f : path_state) (it : tomlkit.item) :
  stored_version f = Some it ->
  match f with Missing => false | _ => true end = true.
Proof. now destruct f. Qed.

(** Unfolds the command and runs it as far as the hypotheses in the
    context decide its tests. *)
Ltac run_command :=
  unfold bump_command, finish, after, questionary_select, path_exists,
    select_title, select_choices, strip_v in *;
  unfold bind, ret, raise, emit, logger;
  cbn;
  repeat first
    [ rewrite get_current_version_eq
    | match goal with
      | H : stored_version ?f = Some _ |- context [match ?f with Missing => _ | _ => _ end] =>
          rewrite (stored_exists _ _ H)
      | H : ?x = _ |- context [?x] => rewrite H
      end
    | progress cbn ].

Lemma is_keyword_inv (a : string) :
  is_keyword a = true -> a = "patch" \/ a = "minor" \/ a = "major".
Proof.
  unfold is_keyword. cbn [existsb]. rewrite !orb_true_iff, !String.eqb_eq.
  intuition discriminate.
Qed.

Lemma choice_bump_type_cases (c : string) :
  choice_bump_type c = "patch" \/ choice_bump_type c = "minor" \/
  choice_bump_type c = "major" \/ choice_bump_type c = "".
Proof.
  unfold choice_bump_type.
  destruct (Str.startswith c "Patch"), (Str.startswith c "Minor"),
    (Str.startswith c "Major"); auto.
Qed.

Lemma parse_bumped (kw : string) (v : semver.Version) :
  semver.parse (semver.to_string (bumped kw v)) = Some (bumped kw v).
Proof.
  unfold bumped.
  destruct (kw =? "patch"); [|destruct (kw =? "minor")]; apply semver.parse_printed.
Qed.

Lemma get_current_version_stored (w : world) (it : tomlkit.item) :
  fst (get_current_version w) = Ok it <->
  stored_version (pyproject_toml w) = Some it.
Proof.
  rewrite get_current_version_eq.
  destruct (stored_version (pyproject_toml w)); simpl; split; congruence.
Qed.

(** *** The runs of the command, case by case *)

Lemma missing_run version dry_run (w : world) :
  pyproject_toml w = Missing ->
  bump_command linesep ask version dry_run w
  = (Raise (Exit 1), after w [PathExists; Log ERROR NotFound]).
Proof. intros Hf. now run_command. Qed.

Lemma unreadable_run version dry_run (w : world) :
  pyproject_toml w <> Missing ->
  stored_version (pyproject_toml w) = None ->
  bump_command linesep ask version dry_run w
  = (Raise (Exit 1), after w [PathExists; OpenRead; Log ERROR FailedToReadVersion]).
Proof.
  intros Hf Hs. destruct (pyproject_toml w) eqn:E; [congruence| |]; now run_command.
Qed.

Lemma not_text_run version dry_run (w : world) text :
  stored_version (pyproject_toml w) = Some (tomlkit.OtherItem text) ->
  bump_command linesep ask version dry_run w
  = (Raise TypeError, after w [PathExists; OpenRead]).
Proof. intros Hs. now run_command. Qed.

Lemma invalid_current_run version dry_run (w : world) cur :
  stored_version (pyproject_toml w) = Some (tomlkit.StringItem cur) ->
  semver.parse cur = None ->
  bump_command linesep ask version dry_run w
  = (Raise (Exit 1),
     after w [PathExists; OpenRead; Log ERROR (InvalidSemanticVersion cur)]).
Proof. intros Hs Hp. now run_command. Qed.

Section ValidCurrent.

Variables (w : world) (cur : string) (v : semver.Version).
Hypothesis Hs : stored_version (pyproject_toml w) = Some (tomlkit.StringItem cur).
Hypothesis Hp : semver.parse cur = Some v.

Lemma keyword_run kw dry_run :
  is_keyword kw = true ->
  bump_command linesep ask (Some kw) dry_run w
  = finish linesep dry_run cur (semver.to_string (bumped kw v))
      (after w [PathExists; OpenRead; Log INFO (CurrentVersion cur);
                Log INFO (BumpingUsing kw);
                Log INFO (NewVersionWillBe (semver.to_string (bumped kw v)))]).
Proof.
  intros Hk.
  assert (Hg : given (Some kw) = true)
    by (destruct (is_keyword_inv _ Hk) as [->|[->| ->]]; reflexivity).
  run_command.
  destruct (is_keyword_inv _ Hk) as [->|[->| ->]]; reflexivity.
Qed.

Lemma explicit_run a dry_run :
  given (Some a) = true ->
  is_keyword a = false ->
  semver.parse (strip_v a) <> None ->
  bump_command linesep ask (Some a) dry_run w
  = finish linesep dry_run cur (strip_v a)
      (after w [PathExists; OpenRead; Log INFO (CurrentVersion cur);
                Log INFO (NewVersionWillBe (strip_v a))]).
Proof.
  intros Hg Hk Hx. destruct (semver.parse (strip_v a)) eqn:E; [|congruence].
  now run_command.
Qed.

Lemma invalid_explicit_run a dry_run :
  given (Some a) = true ->
  is_keyword a = false ->
  semver.parse (strip_v a) = None ->
  bump_command linesep ask (Some a) dry_run w
  = (Raise (Exit 1),
     after w [PathExists; OpenRead; Log INFO (CurrentVersion cur);
              Log ERROR (InvalidVersionFormat (strip_v a));
              Log ERROR PleaseUseValid]).
Proof. intros Hg Hk Hx. now run_command. Qed.

Lemma declined_run version dry_run :
  given version = false ->
  given (ask (select_title cur) (select_choices cur v)) = false ->
  bump_command linesep ask version dry_run w
  = (Raise (Exit 0),
     after w [PathExists; OpenRead; Log INFO (CurrentVersion cur);
              Prompt (select_title cur) (select_choices cur v)]).
Proof. intros Hg Hc. now run_command. Qed.

Lemma choice_run version dry_run c :
  given version = false ->
  ask (select_title cur) (select_choices cur v) = Some c ->
  given (Some c) = true ->
  choice_bump_type c <> "" ->
  bump_command linesep ask version dry_run w
  = finish linesep dry_run cur (semver.to_string (bumped (choice_bump_type c) v))
      (after w [PathExists; OpenRead; Log INFO (CurrentVersion cur);
                Prompt (select_title cur) (select_choices cur v);
                Log INFO (BumpingUsing (choice_bump_type c));
                Log INFO (NewVersionWillBe
                            (semver.to_string (bumped (choice_bump_type c) v)))]).
Proof.
  intros Hg Ha Hc Hb.
  destruct (choice_bump_type_cases c) as [E|[E|[E|E]]]; [| | |congruence];
    rewrite E; run_command; fold (choice_bump_type c); rewrite E; reflexivity.
Qed.

Lemma unknown_choice_run version dry_run c :
  given version = false ->
  ask (select_title cur) (select_choices cur v) = Some c ->
  given (Some c) = true ->
  choice_bump_type c = "" ->
  bump_command linesep ask version dry_run w
  = (Raise (Exit 1),
     after w [PathExists; OpenRead; Log INFO (CurrentVersion cur);
              Prompt (select_title cur) (select_choices cur v);
              Log ERROR (InvalidVersionFormat ""); Log ERROR PleaseUseValid]).
Proof.
  intros Hg Ha Hc E. run_command. fold (choice_bump_type c). rewrite E.
  cbn. now rewrite parse_empty.
Qed.

End ValidCurrent.

(** Every run stops early or reaches line 113 with a valid new version. *)
Lemma bump_command_plan (version : option string) (w : world) :
  plan linesep ask version w.
Proof.
  destruct (stored_version (pyproject_toml w)) as [[cur|text]|] eqn:Hs.
  - destruct (semver.parse cur) as [v|] eqn:Hp.
    + destruct (given version) eqn:Hg.
      * destruct version as [a|]; [|discriminate Hg].
        destruct (is_keyword a) eqn:Hk.
        -- apply Announces with (cur := cur)
             (X := semver.to_string (bumped a v))
             (evs := [PathExists; OpenRead; Log INFO (CurrentVersion cur);
                      Log INFO (BumpingUsing a)]);
             [reflexivity | rewrite parse_bumped; discriminate |].
           intros dry_run. now apply keyword_run.
        -- destruct (semver.parse (strip_v a)) as [x|] eqn:Hx.
           ++ apply Announces with (cur := cur) (X := strip_v a)
                (evs := [PathExists; OpenRead; Log INFO (CurrentVersion cur)]);
                [reflexivity | congruence |].
              intros dry_run. apply explicit_run with (v := v); congruence.
           ++ apply Stops with (1 := InvalidExplicit ask cur (strip_v a)).
              intros dry_run. now apply invalid_explicit_run with (v := v).
      * destruct (given (ask (select_title cur) (select_choices cur v))) eqn:Hc.
        -- destruct (ask (select_title cur) (select_choices cur v)) as [c|] eqn:Ha;
             [|discriminate Hc].
           destruct (string_dec (choice_bump_type c) "") as [Hb|Hb].
           ++ apply Stops with
                (1 := InvalidChoice ask cur (select_title cur) (select_choices cur v) "").
              intros dry_run. now apply unknown_choice_run with (c := c).
           ++ apply Announces with (cur := cur)
                (X := semver.to_string (bumped (choice_bump_type c) v))
                (evs := [PathExists; OpenRead; Log INFO (CurrentVersion cur);
                         Prompt (select_title cur) (select_choices cur v);
                         Log INFO (BumpingUsing (choice_bump_type c))]);
                [reflexivity | rewrite parse_bumped; discriminate |].
              intros dry_run. now apply choice_run.
        -- apply Stops with
             (1 := OperationCancelled ask cur (select_title cur) (select_choices cur v)
                     ltac:(destruct (ask (select_title cur) (select_choices cur v)) as [[|]|];
                           (discriminate Hc || auto))).
           intros dry_run. now apply declined_run.
    + apply Stops with (1 := VersionParseError ask cur).
      intros dry_run. now apply invalid_current_run.
  - apply Stops with (1 := VersionNotText ask).
    intros dry_run. now apply not_text_run with (text := text).
  - destruct (pyproject_toml w) eqn:Hf.
    + apply Stops with (1 := ManifestNotFound ask).
      intros dry_run. now apply missing_run.
    + apply Stops with (1 := ManifestParseError ask).
      intros dry_run. apply unreadable_run; [rewrite Hf; discriminate | now rewrite Hf].
    + apply Stops with (1 := ManifestParseError ask).
      intros dry_run. apply unreadable_run; [rewrite Hf; discriminate | now rewrite Hf].
Qed.

(** *** After the announcement *)

Lemma finish_dry_run cur X (w : world) :
  finish linesep true cur X w = (Ok tt, after w [Log INFO DryRunEnabled]).
Proof. reflexivity. Qed.

Lemma finish_apply cur X (w : world) :
  finish linesep false cur X w =
  match rewritten linesep (pyproject_toml w) X with
  | None =>
      (Raise (Exit 1),
       mkWorld (after_failed_update (pyproject_toml w) X)
         (Log ERROR FailedToUpdate :: OpenRead :: Log INFO UpdatingPyproject :: trace w))
  | Some data =>
      let w1 := mkWorld (Regular false data)
                  (FileWritten data :: OpenRead :: Log INFO UpdatingPyproject :: trace w) in
      match stored_version (Regular false data) with
      | None => (Raise (Exit 1), after w1 [OpenRead; Log ERROR FailedToReadVersion])
      | Some it =>
          if tomlkit.item_differs it X then
            (Raise (Exit 1),
             after w1 [OpenRead; Log ERROR (UpdateFailed X (tomlkit.item_text it))])
          else
            (Ok tt, after w1 [OpenRead; Log SUCCESS (VersionBumped cur X);
                              Log INFO DontForgetLock])
      end
  end.
Proof.
  unfold finish, after, bind, logger, emit; cbn.
  rewrite update_version_eq; cbn.
  destruct (rewritten linesep (pyproject_toml w) X) as [data|]; cbn; [|reflexivity].
  rewrite get_current_version_eq; cbn.
  destruct (stored_version (Regular false data)) as [it|]; cbn; [|reflexivity].
  now destruct (tomlkit.item_differs it X).
Qed.

(** ** The claims of the specification *)

(** The choices the prompt offers stand for the three keywords, in order. *)
Lemma offered_choices (cur : string) (v : semver.Version) :
  map choice_bump_type (select_choices cur v) = ["patch"; "minor"; "major"].
Proof. reflexivity. Qed.

(** C1.  When the manifest holds a valid semantic version, a [patch]
    request yields the version with the patch number plus one and the same
    major and minor numbers; [minor] yields minor plus one and patch zero;
    [major] yields major plus one and minor and patch zero.  In the three
    cases the result has no pre-release and no build metadata: the command
    announces the printed form of that version, which [semver] reads back
    as that version, and goes on with it.  The request is the argument, or
    the choice made at the prompt when there is no argument. *)
Theorem bump_keyword_next_version
    (w : world) (dry_run : bool) (cur : string) (v : semver.Version)
    (kw : string) (next : semver.Version) :
  fst (get_current_version w) = Ok (tomlkit.StringItem cur) ->
  semver.parse cur = Some v ->
  In (kw, next)
    [ ("patch", semver.mkVersion (semver.major v) (semver.minor v)
                  (semver.patch v + 1) None None);
      ("minor", semver.mkVersion (semver.major v) (semver.minor v + 1) 0 None None);
      ("major", semver.mkVersion (semver.major v + 1) 0 0 None None) ] ->
  semver.parse (semver.to_string next) = Some next
  /\
  bump_command linesep ask (Some kw) dry_run w
  = finish linesep dry_run cur (semver.to_string next)
      (after w [PathExists; OpenRead; Log INFO (CurrentVersion cur);
                Log INFO (BumpingUsing kw);
                Log INFO (NewVersionWillBe (semver.to_string next))])
  /\
  (forall version choice,
     given version = false ->
     ask (select_title cur) (select_choices cur v) = Some choice ->
     choice_bump_type choice = kw ->
     bump_command linesep ask version dry_run w
     = finish linesep dry_run cur (semver.to_string next)
         (after w [PathExists; OpenRead; Log INFO (CurrentVersion cur);
                   Prompt (select_title cur) (select_choices cur v);
                   Log INFO (BumpingUsing kw);
                   Log INFO (NewVersionWillBe (semver.to_string next))])).
Proof.
  intros Hs%get_current_version_stored Hp Hin.
  assert (E : is_keyword kw = true /\ next = bumped kw v).
  { cbn [In] in Hin.
    destruct Hin as [H|[H|[H|[]]]]; injection H as <- <-; now split. }
  destruct E as [Hk ->]. split; [|split].
  - apply parse_bumped.
  - now apply keyword_run.
  - intros version choice Hg Ha <-.
    assert (Hne : choice_bump_type choice <> "")
      by (destruct (is_keyword_inv _ Hk) as [->|[->| ->]]; discriminate).
    apply choice_run; auto.
    destruct choice; [now elim Hne | reflexivity].
Qed.


(** C6.  When [pyproject.toml] is missing the command fails with the error
    "pyproject.toml not found" and exit code 1, and the test for the file
    is all it has done: nothing was read, computed, asked or written. *)
Theorem missing_manifest_fails_first
    (version : option string) (dry_run : bool) (w : world) :
  pyproject_toml w = Missing ->
  bump_command linesep ask version dry_run w
  = (Raise (Exit 1), after w [PathExists; Log ERROR NotFound]).
Proof. apply missing_run. Qed.

(** What the early stops have in common: nothing is written, an error is
    logged only with exit code 1, and the exit code is 0 only when the
    prompt was declined. *)
Lemma stop_writes_nothing e evs :
  stop ask e evs -> forall data, ~ In (FileWritten data) evs.
Proof.
  intros H data Hin. destruct H; cbn [In] in Hin;
    repeat (destruct Hin as [Hin|Hin]; [discriminate Hin|]); exact Hin.
Qed.

Lemma stop_error_exits_1 e evs :
  stop ask e evs -> forall msg, In (Log ERROR msg) evs -> e = Exit 1.
Proof.
  intros H msg Hin. destruct H; try reflexivity; cbn [In] in Hin;
    repeat (destruct Hin as [Hin|Hin]; [discriminate Hin|]); destruct Hin.
Qed.

Lemma stop_status e evs :
  stop ask e evs ->
  exit_status (Raise e : result unit) = 1%Z \/
  e = Exit 0 /\
  exists title choices evs',
    evs = (evs' ++ [Prompt title choices])%list /\ given (ask title choices) = false.
Proof.
  intros H. destruct H; auto. right. split; [reflexivity|].
  exists title, choices, [PathExists; OpenRead; Log INFO (CurrentVersion cur)].
  split; [reflexivity|]. now destruct H as [-> | ->].
Qed.

Lemma preliminary_In evs e :
  forallb preliminary evs = true -> In e evs -> preliminary e = true.
Proof. intros H. now apply forallb_forall. Qed.



(** The leading [v] of an argument is dropped before anything else is
    done with it, once. *)
Lemma leading_v_run (s : string) (dry_run : bool) (w : world) :
  given (Some s) = true ->
  is_keyword s = false ->
  Str.startswith s "v" = false ->
  bump_command linesep ask (Some ("v" ++ s)) dry_run w
  = bump_command linesep ask (Some s) dry_run w.
Proof.
  intros Hg Hk Hv.
  assert (Hg' : given (Some ("v" ++ s)) = true) by reflexivity.
  assert (Hk' : is_keyword ("v" ++ s) = false) by reflexivity.
  assert (Hv' : Str.startswith ("v" ++ s) "v" = true) by reflexivity.
  unfold bump_command. cbn [or_empty].
  rewrite Hg, Hg', Hk, Hk', Hv, Hv'. reflexivity.
Qed.

(** C8, as amended.  For a text [s] that is not empty, is not a keyword
    and does not itself start with [v], the arguments [v] followed by [s]
    and [s] itself give the same run: the same result, the same events,
    the same file.  The text without the [v] is what is validated,
    announced and written: on a valid manifest the run with the [v]
    announces [s] and goes on with it when the parser accepts [s], and is
    the error "Invalid version format" on [s] otherwise; and what it
    writes, without [dry_run], is the update of the file with [s]. *)
Theorem leading_v_is_stripped
    (s : string) (dry_run : bool) (w : world) :
  s <> "" ->
  is_keyword s = false ->
  Str.startswith s "v" = false ->
  bump_command linesep ask (Some ("v" ++ s)) dry_run w
  = bump_command linesep ask (Some s) dry_run w
  /\
  (forall cur, fst (get_current_version w) = Ok (tomlkit.StringItem cur) ->
               semver.parse cur <> None ->
     bump_command linesep ask (Some ("v" ++ s)) dry_run w
     = match semver.parse s with
       | Some _ =>
           finish linesep dry_run cur s
             (after w [PathExists; OpenRead; Log INFO (CurrentVersion cur);
                       Log INFO (NewVersionWillBe s)])
       | None =>
           (Raise (Exit 1),
            after w [PathExists; OpenRead; Log INFO (CurrentVersion cur);
                     Log ERROR (InvalidVersionFormat s);
                     Log ERROR PleaseUseValid])
       end)
  /\
  (forall cur data,
     fst (get_current_version w) = Ok (tomlkit.StringItem cur) ->
     semver.parse cur <> None ->
     semver.parse s <> None ->
     rewritten linesep (pyproject_toml w) s = Some data ->
     In (FileWritten data)
        (trace (snd (bump_command linesep ask (Some ("v" ++ s)) false w)))
     /\ pyproject_toml (snd (bump_command linesep ask (Some ("v" ++ s)) false w))
        = Regular false data).
Proof.
  intros Hne Hk Hv.
  assert (Hg : given (Some s) = true) by (destruct s; [congruence | reflexivity]).
  assert (Hrun : forall dr cur,
     fst (get_current_version w) = Ok (tomlkit.StringItem cur) ->
     semver.parse cur <> None ->
     bump_command linesep ask (Some ("v" ++ s)) dr w
     = match semver.parse s with
       | Some _ =>
           finish linesep dr cur s
             (after w [PathExists; OpenRead; Log INFO (CurrentVersion cur);
                       Log INFO (NewVersionWillBe s)])
       | None =>
           (Raise (Exit 1),
            after w [PathExists; OpenRead; Log INFO (CurrentVersion cur);
                     Log ERROR (InvalidVersionFormat s);
                     Log ERROR PleaseUseValid])
       end).
  { intros dr cur Hs%get_current_version_stored Hp.
    destruct (semver.parse cur) as [v|] eqn:E; [|congruence].
    destruct (semver.parse s) eqn:Hx.
    - apply (explicit_run w cur v Hs E ("v" ++ s) dr); try reflexivity.
      change (strip_v ("v" ++ s)) with s. congruence.
    - now apply (invalid_explicit_run w cur v Hs E ("v" ++ s) dr). }
  split; [now apply leading_v_run|]. split; [apply Hrun|].
  intros cur data Hs Hp Hx Hw.
  rewrite (Hrun false cur Hs Hp).
  destruct (semver.parse s); [|congruence].
  rewrite finish_apply. cbn [pyproject_toml after]. rewrite Hw. cbv zeta.
  destruct (stored_version (Regular false data)) as [it|];
    [destruct (tomlkit.item_differs it s)|];
    (split; [|reflexivity]); cbn; auto 6.
Qed.

(** C10.  The keywords are the three exact strings, and the test for them
    comes before the leading [v] is dropped.  With a valid manifest, a
    keyword argument is a bump of the current version, and any other
    non-empty argument is validated as an explicit version after the [v]
    is dropped: it is announced as it stands when [semver] accepts it and
    is an "Invalid version format" error otherwise.  So [vpatch] is not the
    keyword [patch]: it is the invalid explicit version [patch]. *)
Theorem keyword_test_precedes_strip
    (dry_run : bool) (w : world) (cur : string) (v : semver.Version) :
  fst (get_current_version w) = Ok (tomlkit.StringItem cur) ->
  semver.parse cur = Some v ->
  (forall a, is_keyword a = true <-> a = "patch" \/ a = "minor" \/ a = "major")
  /\
  (forall a, is_keyword a = true ->
     bump_command linesep ask (Some a) dry_run w
     = finish linesep dry_run cur (semver.to_string (bumped a v))
         (after w [PathExists; OpenRead; Log INFO (CurrentVersion cur);
                   Log INFO (BumpingUsing a);
                   Log INFO (NewVersionWillBe (semver.to_string (bumped a v)))]))
  /\
  (forall a, a <> "" -> is_keyword a = false ->
     bump_command linesep ask (Some a) dry_run w
     = match semver.parse (strip_v a) with
       | Some _ =>
           finish linesep dry_run cur (strip_v a)
             (after w [PathExists; OpenRead; Log INFO (CurrentVersion cur);
                       Log INFO (NewVersionWillBe (strip_v a))])
       | None =>
           (Raise (Exit 1),
            after w [PathExists; OpenRead; Log INFO (CurrentVersion cur);
                     Log ERROR (InvalidVersionFormat (strip_v a));
                     Log ERROR PleaseUseValid])
       end)
  /\
  bump_command linesep ask (Some "vpatch") dry_run w
  = (Raise (Exit 1),
     after w [PathExists; OpenRead; Log INFO (CurrentVersion cur);
              Log ERROR (InvalidVersionFormat "patch");
              Log ERROR PleaseUseValid]).
Proof.
  intros Hs%get_current_version_stored Hp.
  assert (Hexp : forall a, a <> "" -> is_keyword a = false ->
     bump_command linesep ask (Some a) dry_run w
     = match semver.parse (strip_v a) with
       | Some _ =>
           finish linesep dry_run cur (strip_v a)
             (after w [PathExists; OpenRead; Log INFO (CurrentVersion cur);
                       Log INFO (NewVersionWillBe (strip_v a))])
       | None =>
           (Raise (Exit 1),
            after w [PathExists; OpenRead; Log INFO (CurrentVersion cur);
                     Log ERROR (InvalidVersionFormat (strip_v a));
                     Log ERROR PleaseUseValid])
       end).
  { intros a Ha Hk.
    assert (Hg : given (Some a) = true) by (destruct a; [congruence | reflexivity]).
    destruct (semver.parse (strip_v a)) eqn:Hx.
    - apply explicit_run with (v := v); congruence.
    - now apply invalid_explicit_run with (v := v). }
  repeat split.
  - apply is_keyword_inv.
  - intros [->|[->| ->]]; reflexivity.
  - intros a Hk. now apply keyword_run.
  - exact Hexp.
  - rewrite (Hexp "vpatch"); [|discriminate|reflexivity].
    change (strip_v "vpatch") with "patch".
    destruct (semver.parse "patch") as [x|] eqn:E; [|reflexivity].
    destruct (semver.parse_leading_digit _ _ E) as (c & r & [= <- <-] & Hc).
    discriminate Hc.
Qed.

(** *** Whole runs *)

Lemma after_after (w : world) (a b : list event) :
  after (after w a) b = after w (a ++ b)%list.
Proof.
  unfold after; cbn. now rewrite List.rev_app_distr, List.app_assoc.
Qed.

Lemma in_trace_after (w : world) (evs : list event) (e : event) :
  In e (trace (after w evs)) <-> In e evs \/ In e (trace w).
Proof. unfold after; cbn. now rewrite in_app_iff, <- in_rev. Qed.

(** The events up to the announcement of [X]: no error, nothing written,
    and no other announcement. *)
Lemma in_announced (f : path_state) (evs : list event) (X : string) (e : event) :
  forallb preliminary evs = true ->
  In e (trace (after (start f) (evs ++ [Log INFO (NewVersionWillBe X)])%list)) ->
  preliminary e = true \/ e = Log INFO (NewVersionWillBe X).
Proof.
  intros Hpre [Hin|[]]%in_trace_after.
  apply in_app_iff in Hin as [Hin|[<-|[]]]; [left|now right].
  eapply preliminary_In; eassumption.
Qed.


Lemma item_differs_false (it : tomlkit.item) (X : string) :
  tomlkit.item_differs it X = false <-> it = tomlkit.StringItem X.
Proof.
  destruct it as [u|t]; cbn.
  - rewrite negb_false_iff, String.eqb_eq. split; congruence.
  - split; discriminate.
Qed.

(** Splits a membership in an explicit list into its cases and closes those
    that equate different events. *)
Ltac in_cases H :=
  cbn [In trace after List.rev app pyproject_toml] in H;
  repeat (destruct H as [H|H]; [try discriminate H|]).

(** C2.  A run without [dry_run] that returns has written the file and
    then read it again, in that order, and the version it has read is,
    exactly, the string it had announced and written; reading the file
    once more gives that string.  If the file has been written and the
    version read back is anything else, the command has exited with code 1
    on the error "Version update failed". *)
Theorem written_version_is_verified
    (version : option string) (f : path_state) (r : result unit) (w' : world) :
  bump_command linesep ask version false (start f) = (r, w') ->
  (r = Ok tt ->
     exists cur X data evs,
       trace w' = List.rev (evs ++ [Log INFO (NewVersionWillBe X);
                                    Log INFO UpdatingPyproject;
                                    OpenRead; FileWritten data; OpenRead;
                                    Log SUCCESS (VersionBumped cur X);
                                    Log INFO DontForgetLock])
       /\ forallb preliminary evs = true
       /\ pyproject_toml w' = Regular false data
       /\ fst (get_current_version w') = Ok (tomlkit.StringItem X))
  /\
  (forall X data it,
     In (Log INFO (NewVersionWillBe X)) (trace w') ->
     In (FileWritten data) (trace w') ->
     fst (get_current_version w') = Ok it ->
     it <> tomlkit.StringItem X ->
     r = Raise (Exit 1)
     /\ hd_error (trace w') = Some (Log ERROR (UpdateFailed X (tomlkit.item_text it)))).
Proof.
  intros Hrun'.
  destruct (bump_command_plan version (start f)) as [e evs Hstop Hrun|cur X evs Hpre HX Hrun].
  - rewrite (Hrun false) in Hrun'. injection Hrun' as <- <-.
    split; [discriminate|]. intros X data it _ Hw _ _. exfalso.
    apply in_trace_after in Hw as [Hw|[]].
    now apply (stop_writes_nothing _ _ Hstop data).
  - rewrite (Hrun false), finish_apply in Hrun'.
    set (w0 := after (start f) (evs ++ [Log INFO (NewVersionWillBe X)])%list) in *.
    assert (Hone : forall Y, In (Log INFO (NewVersionWillBe Y)) (trace w0) -> Y = X).
    { intros Y [H|H]%(in_announced f evs X _ Hpre); [discriminate H | congruence]. }
    assert (Hnow : forall data, ~ In (FileWritten data) (trace w0)).
    { intros data [H|H]%(in_announced f evs X _ Hpre); discriminate H. }
    destruct (rewritten linesep (pyproject_toml w0) X) as [data|].
    + cbv zeta in Hrun'.
      destruct (stored_version (Regular false data)) as [it0|] eqn:Hst.
      * destruct (tomlkit.item_differs it0 X) eqn:Hd;
          injection Hrun' as <- <-; (split; [try discriminate|]).
        -- intros Y data' it HY _ Hit _.
           apply get_current_version_stored in Hit. cbn in Hit.
           rewrite Hst in Hit. injection Hit as <-.
           in_cases HY. apply Hone in HY as ->. now split.
        -- intros _. exists cur, X, data, evs. repeat split; auto.
           ++ cbn. unfold w0, after; cbn.
              rewrite !List.rev_app_distr, List.app_nil_r. reflexivity.
           ++ apply get_current_version_stored. cbn. rewrite Hst.
              f_equal. now apply item_differs_false.
        -- intros Y data' it HY _ Hit Hne. exfalso.
           apply get_current_version_stored in Hit. cbn in Hit.
           rewrite Hst in Hit. injection Hit as <-.
           in_cases HY. apply Hone in HY as ->.
           now apply item_differs_false in Hd.
      * injection Hrun' as <- <-. split; [discriminate|].
        intros Y data' it _ _ Hit _. exfalso.
        apply get_current_version_stored in Hit. cbn in Hit.
        rewrite Hst in Hit. discriminate Hit.
    + injection Hrun' as <- <-. split; [discriminate|].
      intros Y data' it _ Hw _ _. exfalso.
      in_cases Hw. now apply (Hnow data').
Qed.

(** C9.  When no version is given and the user declines the prompt (the
    answer is [None]), the command exits with code 0: no error is logged
    and the file is as it was.  In every run, an error is logged only when
    the command exits with code 1, and a run either returns, or exits with
    code 0 on a declined prompt with the file as it was, or ends with exit
    status 1. *)
Theorem declined_prompt_is_clean_exit
    (version : option string) (dry_run : bool) (f : path_state)
    (r : result unit) (w' : world) :
  bump_command linesep ask version dry_run (start f) = (r, w') ->
  (forall cur v,
     given version = false ->
     fst (get_current_version (start f)) = Ok (tomlkit.StringItem cur) ->
     semver.parse cur = Some v ->
     given (ask (select_title cur) (select_choices cur v)) = false ->
     r = Raise (Exit 0) /\ exit_status r = 0%Z
     /\ w' = after (start f) [PathExists; OpenRead; Log INFO (CurrentVersion cur);
                              Prompt (select_title cur) (select_choices cur v)])
  /\
  (forall msg, In (Log ERROR msg) (trace w') -> r = Raise (Exit 1))
  /\
  (r = Ok tt
   \/ (r = Raise (Exit 0) /\ pyproject_toml w' = f /\
       exists title choices t,
         trace w' = Prompt title choices :: t /\ given (ask title choices) = false)
   \/ (exit_status r = 1%Z /\ exists e, r = Raise e)).
Proof.
  intros Hrun'. split; [|split].
  - intros cur v Hg Hs%get_current_version_stored Hp Hc.
    rewrite (declined_run (start f) cur v Hs Hp version dry_run Hg Hc) in Hrun'.
    injection Hrun' as <- <-. now repeat split.
  - intros msg Hin.
    destruct (bump_command_plan version (start f))
      as [e evs Hstop Hrun|cur X evs Hpre HX Hrun];
      rewrite (Hrun dry_run) in Hrun'.
    + injection Hrun' as <- <-.
      apply in_trace_after in Hin as [Hin|[]].
      now rewrite (stop_error_exits_1 _ _ Hstop msg Hin).
    + assert (Hno : ~ In (Log ERROR msg)
                      (trace (after (start f) (evs ++ [Log INFO (NewVersionWillBe X)])%list))).
      { intros [H|H]%(in_announced f evs X _ Hpre); discriminate H. }
      destruct dry_run.
      * rewrite finish_dry_run in Hrun'. injection Hrun' as <- <-.
        in_cases Hin. contradiction.
      * rewrite finish_apply in Hrun'. cbv zeta in Hrun'.
        destruct (rewritten linesep _ X) as [data|];
          [destruct (stored_version (Regular false data)) as [it|];
             [destruct (tomlkit.item_differs it X)|]|];
          injection Hrun' as <- <-; try reflexivity.
        in_cases Hin. contradiction.
  - destruct (bump_command_plan version (start f))
      as [e evs Hstop Hrun|cur X evs Hpre HX Hrun];
      rewrite (Hrun dry_run) in Hrun'.
    + injection Hrun' as <- <-.
      destruct (stop_status _ _ Hstop) as [H|[-> (title & choices & evs' & -> & Hc)]].
      * right; right. split; [exact H | now exists e].
      * right; left. repeat split.
        exists title, choices, (List.rev evs'). split; [|exact Hc].
        unfold after; cbn. now rewrite List.rev_app_distr, List.app_nil_r.
    + destruct dry_run.
      * rewrite finish_dry_run in Hrun'. injection Hrun' as <- <-. now left.
      * rewrite finish_apply in Hrun'. cbv zeta in Hrun'.
        destruct (rewritten linesep _ X) as [data|];
          [destruct (stored_version (Regular false data)) as [it|];
             [destruct (tomlkit.item_differs it X)|]|];
          injection Hrun' as <- <-;
          solve [ now left | right; right; split; [reflexivity | now eexists] ].
Qed.

(** *** The write *)

Lemma universal_newlines_id (s : string) :
  Str.all (fun c => negb (Ascii.eqb c Str.CR)) s = true ->
  universal_newlines s = s.
Proof.
  induction s as [|c s IH]; [reflexivity|].
  intros [Hc Hs]%andb_prop. apply negb_true_iff in Hc.
  cbn [universal_newlines]. now rewrite Hc, (IH Hs).
Qed.


End Runs.

(** ** The small TOML library keeps the text around the version *)





(** ** The examples of the specification, run *)

Example parse_0_1_0 :
  semver.parse "0.1.0" = Some (semver.mkVersion 0 1 0 None None).
Proof. reflexivity. Qed.

Example parse_beta :
  semver.parse "2.0.0-beta" = Some (semver.mkVersion 2 0 0 (Some "beta") None).
Proof. reflexivity. Qed.

Example parse_full :
  semver.parse "1.2.3-rc.1+build.5"
  = Some (semver.mkVersion 1 2 3 (Some "rc.1") (Some "build.5")).
Proof. reflexivity. Qed.

Example parse_rejects :
  map semver.parse ["not-a-version"; "1.2"; "01.2.3"; "1.2.3-"; "1.2.3-01"; "v1.2.3"; ""; "1.2.3+"]
  = [None; None; None; None; None; None; None; None].
Proof. reflexivity. Qed.

Example str_bump_minor :
  option_map (fun v => semver.to_string (semver.bump_minor v)) (semver.parse "1.9.9")
  = Some "1.10.0".
Proof. reflexivity. Qed.

(** Current [0.1.0], request [patch]: next [0.1.1], written and verified. *)
Example run_patch :
  bump_command MiniToml.lf MiniToml.silent (Some "patch") false (MiniToml.project "0.1.0")
  = (Ok tt,
     mkWorld (Regular false (MiniToml.manifest MiniToml.lf "0.1.1"))
       (List.rev
          [PathExists; OpenRead; Log INFO (CurrentVersion "0.1.0");
           Log INFO (BumpingUsing "patch"); Log INFO (NewVersionWillBe "0.1.1");
           Log INFO UpdatingPyproject; OpenRead;
           FileWritten (MiniToml.manifest MiniToml.lf "0.1.1"); OpenRead;
           Log SUCCESS (VersionBumped "0.1.0" "0.1.1"); Log INFO DontForgetLock])).
Proof. reflexivity. Qed.

(** Current [2.0.0-beta], request [major] chosen at the prompt: next
    [3.0.0]; with [dry_run] nothing is written. *)
Example run_major_interactive :
  bump_command MiniToml.lf (MiniToml.picks 2) None true (MiniToml.project "2.0.0-beta")
  = (Ok tt,
     after (MiniToml.project "2.0.0-beta")
       [PathExists; OpenRead; Log INFO (CurrentVersion "2.0.0-beta");
        Prompt "Select bump type (Current: 2.0.0-beta)"
          ["Patch (2.0.0-beta -> 2.0.1)"; "Minor (2.0.0-beta -> 2.1.0)";
           "Major (2.0.0-beta -> 3.0.0)"];
        Log INFO (BumpingUsing "major"); Log INFO (NewVersionWillBe "3.0.0");
        Log INFO DryRunEnabled]).
Proof. reflexivity. Qed.

(** Current [1.0.0], explicit [v1.5.0]: accepted, next [1.5.0]. *)
Example run_explicit :
  bump_command MiniToml.lf MiniToml.silent (Some "v1.5.0") false (MiniToml.project "1.0.0")
  = (Ok tt,
     mkWorld (Regular false (MiniToml.manifest MiniToml.lf "1.5.0"))
       (List.rev
          [PathExists; OpenRead; Log INFO (CurrentVersion "1.0.0");
           Log INFO (NewVersionWillBe "1.5.0");
           Log INFO UpdatingPyproject; OpenRead;
           FileWritten (MiniToml.manifest MiniToml.lf "1.5.0"); OpenRead;
           Log SUCCESS (VersionBumped "1.0.0" "1.5.0"); Log INFO DontForgetLock])).
Proof. reflexivity. Qed.

(** Explicit [not-a-version]: "Invalid version format", exit code 1. *)
Example run_not_a_version :
  bump_command MiniToml.lf MiniToml.silent (Some "not-a-version") false
    (MiniToml.project "1.0.0")
  = (Raise (Exit 1),
     after (MiniToml.project "1.0.0")
       [PathExists; OpenRead; Log INFO (CurrentVersion "1.0.0");
        Log ERROR (InvalidVersionFormat "not-a-version"); Log ERROR PleaseUseValid]).
Proof. reflexivity. Qed.

(** A read-only manifest: the write fails, exit code 1,
    and the file is as it was. *)
Example run_read_only :
  bump_command MiniToml.lf MiniToml.silent (Some "minor") false
    (start (Regular true (MiniToml.manifest MiniToml.lf "1.9.9")))
  = (Raise (Exit 1),
     after (start (Regular true (MiniToml.manifest MiniToml.lf "1.9.9")))
       [PathExists; OpenRead; Log INFO (CurrentVersion "1.9.9");
        Log INFO (BumpingUsing "minor"); Log INFO (NewVersionWillBe "1.10.0");
        Log INFO UpdatingPyproject; OpenRead; Log ERROR FailedToUpdate]).
Proof. reflexivity. Qed.

(** With a library that loses the new version, the check after the write
    fails the command. *)
Example run_verification_failed :
  bump_command (toml := MiniToml.lossy) MiniToml.lf MiniToml.silent (Some "patch") false
    (MiniToml.project "0.1.0")
  = (Raise (Exit 1),
     after (MiniToml.project "0.1.0")
       [PathExists; OpenRead; Log INFO (CurrentVersion "0.1.0");
        Log INFO (BumpingUsing "patch"); Log INFO (NewVersionWillBe "0.1.1");
        Log INFO UpdatingPyproject; OpenRead;
        FileWritten (MiniToml.manifest MiniToml.lf "0.1.0"); OpenRead;
        Log ERROR (UpdateFailed "0.1.1" "0.1.0")]).
Proof. reflexivity. Qed.

(** With a library that cannot serialise the document, the update fails
    after the file was opened for writing: exit code 1, and the file is
    left empty. *)
Example run_write_failed :
  bump_command (toml := MiniToml.mute) MiniToml.lf MiniToml.silent (Some "patch") false
    (MiniToml.project "0.1.0")
  = (Raise (Exit 1),
     mkWorld (Regular false "")
       (List.rev
          [PathExists; OpenRead; Log INFO (CurrentVersion "0.1.0");
           Log INFO (BumpingUsing "patch"); Log INFO (NewVersionWillBe "0.1.1");
           Log INFO UpdatingPyproject; OpenRead; Log ERROR FailedToUpdate])).
Proof. reflexivity. Qed.

(** [update_version] with a text that the encoding of the platform cannot
    express, here a letter outside ASCII where only ASCII can be written:
    [f.write] raises, and the file is left empty. *)
Example update_version_cannot_encode :
  update_version (encoding := ascii_only) MiniToml.lf
    ("1.0.0-" ++ String (Ascii.ascii_of_nat 195) (String (Ascii.ascii_of_nat 169) ""))
    (MiniToml.project "1.0.0")
  = (Raise (Exit 1),
     mkWorld (Regular false "") [Log ERROR FailedToUpdate; OpenRead]).
Proof. reflexivity. Qed.

(** The leading [v] is dropped once: [vv1.0.0] is the invalid version
    [v1.0.0]. *)
Example run_double_v :
  bump_command MiniToml.lf MiniToml.silent (Some "vv1.0.0") true (MiniToml.project "1.0.0")
  = (Raise (Exit 1),
     after (MiniToml.project "1.0.0")
       [PathExists; OpenRead; Log INFO (CurrentVersion "1.0.0");
        Log ERROR (InvalidVersionFormat "v1.0.0"); Log ERROR PleaseUseValid]).
Proof. reflexivity. Qed.

(** ** The claims at concrete runs *)

(** [bump_keyword_next_version] at the manifest [2.0.0-beta] and the
    request [major]. *)
Lemma bump_keyword_next_version_witness :
  let w := MiniToml.project "2.0.0-beta" in
  fst (get_current_version w) = Ok (tomlkit.StringItem "2.0.0-beta") /\
  semver.parse "2.0.0-beta" = Some (semver.mkVersion 2 0 0 (Some "beta") None) /\
  semver.parse "3.0.0" = Some (semver.mkVersion 3 0 0 None None) /\
  bump_command MiniToml.lf MiniToml.silent (Some "major") false w
  = finish MiniToml.lf false "2.0.0-beta" "3.0.0"
      (after w [PathExists; OpenRead; Log INFO (CurrentVersion "2.0.0-beta");
                Log INFO (BumpingUsing "major"); Log INFO (NewVersionWillBe "3.0.0")]).
Proof.
  cbv zeta. split; [reflexivity|]. split; [reflexivity|].
  assert (H := bump_keyword_next_version MiniToml.lf MiniToml.silent
           (MiniToml.project "2.0.0-beta") false "2.0.0-beta"
           (semver.mkVersion 2 0 0 (Some "beta") None)
           "major" (semver.mkVersion 3 0 0 None None)
           eq_refl eq_refl (or_intror (or_intror (or_introl eq_refl)))).
  exact (conj (proj1 H) (proj1 (proj2 H))).
Defined.

(** [written_version_is_verified] at the manifest [0.1.0] and the request
    [patch]. *)
Lemma written_version_is_verified_witness :
  let w' :=
    mkWorld (Regular false (MiniToml.manifest MiniToml.lf "0.1.1"))
      (List.rev
         [PathExists; OpenRead; Log INFO (CurrentVersion "0.1.0");
          Log INFO (BumpingUsing "patch"); Log INFO (NewVersionWillBe "0.1.1");
          Log INFO UpdatingPyproject; OpenRead;
          FileWritten (MiniToml.manifest MiniToml.lf "0.1.1"); OpenRead;
          Log SUCCESS (VersionBumped "0.1.0" "0.1.1"); Log INFO DontForgetLock]) in
  bump_command MiniToml.lf MiniToml.silent (Some "patch") false
    (start (Regular false (MiniToml.manifest MiniToml.lf "0.1.0")))
  = (Ok tt, w')
  /\ exists cur X data evs,
       trace w' = List.rev (evs ++ [Log INFO (NewVersionWillBe X);
                                    Log INFO UpdatingPyproject;
                                    OpenRead; FileWritten data; OpenRead;
                                    Log SUCCESS (VersionBumped cur X);
                                    Log INFO DontForgetLock])
       /\ forallb preliminary evs = true
       /\ pyproject_toml w' = Regular false data
       /\ fst (get_current_version w') = Ok (tomlkit.StringItem X).
Proof.
  cbv zeta. split; [reflexivity|].
  apply (written_version_is_verified MiniToml.lf MiniToml.silent (Some "patch")
           (Regular false (MiniToml.manifest MiniToml.lf "0.1.0")) (Ok tt)).
  - reflexivity.
  - reflexivity.
Defined.




(** With a parser that accepts the grammar and nothing else, that manifest
    is fatal. *)
Example current_version_with_line_feed_strict :
  bump_command (parser := semver_grammar) MiniToml.lf MiniToml.silent (Some "1.2.3") true
    (MiniToml.project "1.0.0\n")
  = (Raise (Exit 1),
     after (MiniToml.project "1.0.0\n")
       [PathExists; OpenRead;
        Log ERROR (InvalidSemanticVersion ("1.0.0" ++ MiniToml.lf))]).
Proof. reflexivity. Qed.


(** [missing_manifest_fails_first] where there is no manifest. *)
Lemma missing_manifest_fails_first_witness :
  pyproject_toml (start Missing) = Missing /\
  bump_command MiniToml.lf (MiniToml.picks 0) None false (start Missing)
  = (Raise (Exit 1), after (start Missing) [PathExists; Log ERROR NotFound]).
Proof.
  split; [reflexivity|].
  exact (missing_manifest_fails_first MiniToml.lf (MiniToml.picks 0) None false
           (start Missing) eq_refl).
Defined.



(** [leading_v_is_stripped] at the version [1.2.3]. *)
Lemma leading_v_is_stripped_witness :
  let w := MiniToml.project "1.0.0" in
  "1.2.3" <> "" /\
  is_keyword "1.2.3" = false /\
  Str.startswith "1.2.3" "v" = false /\
  bump_command MiniToml.lf MiniToml.silent (Some "v1.2.3") false w
  = bump_command MiniToml.lf MiniToml.silent (Some "1.2.3") false w /\
  In (FileWritten (MiniToml.manifest MiniToml.lf "1.2.3"))
     (trace (snd (bump_command MiniToml.lf MiniToml.silent (Some "v1.2.3") false w))).
Proof.
  cbv zeta.
  assert (Hs : "1.2.3" <> "") by discriminate.
  pose proof (leading_v_is_stripped MiniToml.lf MiniToml.silent "1.2.3" false
                (MiniToml.project "1.0.0") Hs eq_refl eq_refl) as (Hsame & _ & Hw).
  split; [exact Hs|]. split; [reflexivity|]. split; [reflexivity|].
  split; [exact Hsame|].
  apply (Hw "1.0.0" (MiniToml.manifest MiniToml.lf "1.2.3")).
  - reflexivity.
  - discriminate.
  - discriminate.
  - reflexivity.
Defined.

(** The leading [v] is not dropped from every text: with [v1.0.0] for
    [s], the argument [vv1.0.0] is the invalid version [v1.0.0] while the
    argument [v1.0.0] is the version [1.0.0]; with the keyword [patch] for
    [s], [vpatch] is an invalid version while [patch] is a bump; and with
    the empty text, [v] is an invalid version while the empty argument
    opens the prompt. *)
Lemma leading_v_makes_a_difference :
  let w := MiniToml.project "1.0.0" in
  bump_command MiniToml.lf MiniToml.silent (Some ("v" ++ "v1.0.0")) true w
  <> bump_command MiniToml.lf MiniToml.silent (Some "v1.0.0") true w
  /\ bump_command MiniToml.lf MiniToml.silent (Some ("v" ++ "patch")) true w
     <> bump_command MiniToml.lf MiniToml.silent (Some "patch") true w
  /\ bump_command MiniToml.lf MiniToml.silent (Some ("v" ++ "")) true w
     <> bump_command MiniToml.lf MiniToml.silent (Some "") true w.
Proof.
  cbv zeta. repeat split; intros E; vm_compute in E; discriminate E.
Qed.

(** [declined_prompt_is_clean_exit] at the manifest [1.0.0], no argument
    and a user who declines. *)
Lemma declined_prompt_is_clean_exit_witness :
  let f := Regular false (MiniToml.manifest MiniToml.lf "1.0.0") in
  let w' :=
    after (start f)
      [PathExists; OpenRead; Log INFO (CurrentVersion "1.0.0");
       Prompt "Select bump type (Current: 1.0.0)"
         ["Patch (1.0.0 -> 1.0.1)"; "Minor (1.0.0 -> 1.1.0)";
          "Major (1.0.0 -> 2.0.0)"]] in
  bump_command MiniToml.lf MiniToml.silent None false (start f) = (Raise (Exit 0), w')
  /\ (forall msg, In (Log ERROR msg) (trace w') -> Raise (Exit 0) = Raise (Exit 1) :> result unit)
  /\ pyproject_toml w' = f.
Proof.
  cbv zeta. split; [reflexivity|]. split; [|reflexivity].
  apply (declined_prompt_is_clean_exit MiniToml.lf MiniToml.silent None false
           (Regular false (MiniToml.manifest MiniToml.lf "1.0.0")) (Raise (Exit 0))).
  reflexivity.
Defined.

(** [keyword_test_precedes_strip] at the manifest [1.0.0]: the argument
    [vpatch]. *)
Lemma keyword_test_precedes_strip_witness :
  let w := MiniToml.project "1.0.0" in
  fst (get_current_version w) = Ok (tomlkit.StringItem "1.0.0") /\
  semver.parse "1.0.0" = Some (semver.mkVersion 1 0 0 None None) /\
  bump_command MiniToml.lf MiniToml.silent (Some "vpatch") false w
  = (Raise (Exit 1),
     after w [PathExists; OpenRead; Log INFO (CurrentVersion "1.0.0");
              Log ERROR (InvalidVersionFormat "patch"); Log ERROR PleaseUseValid]).
Proof.
  cbv zeta. split; [reflexivity|]. split; [reflexivity|].
  exact (proj2 (proj2 (proj2
           (keyword_test_precedes_strip MiniToml.lf MiniToml.silent false
              (MiniToml.project "1.0.0") "1.0.0" (semver.mkVersion 1 0 0 None None)
              eq_refl eq_refl)))).
Defined.

(** * Further properties of the module *)

Section Beyond.

Context {parser : semver.Parser}.
Context {toml : tomlkit.TomlKit}.
Context {encoding : Encoding}.
Variable linesep : string.
Variable ask : string -> list string -> option string.

(** ** How a run ends *)

Lemma history_after_start (f : path_state) (evs : list event) :
  history (after (start f) evs) = evs.
Proof.
  unfold history, after; cbn. now rewrite List.app_nil_r, List.rev_involutive.
Qed.

Lemma item_differs_true (it : tomlkit.item) (X : string) :
  tomlkit.item_differs it X = true -> it <> tomlkit.StringItem X.
Proof.
  intros H E. apply item_differs_false in E. congruence.
Qed.

(** The plan of a run and what [finish] does after it, put together. *)
Lemma run_ending (version : option string) (dry_run : bool) (f : path_state) :
  ending linesep ask f dry_run
    (fst (bump_command linesep ask version dry_run (start f)))
    (pyproject_toml (snd (bump_command linesep ask version dry_run (start f))))
    (history (snd (bump_command linesep ask version dry_run (start f)))).
Proof.
  destruct (bump_command_plan linesep ask version (start f))
    as [e evs Hstop Hrun|cur X evs Hpre HX Hrun]; rewrite (Hrun dry_run).
  - cbn [fst snd]. rewrite history_after_start. now apply Stopped.
  - destruct dry_run.
    + rewrite finish_dry_run, after_after, <- List.app_assoc. cbn [fst snd app].
      rewrite history_after_start. now apply DryRunDone.
    + rewrite finish_apply.
      change (pyproject_toml (after (start f) (evs ++ [Log INFO (NewVersionWillBe X)])))
        with f.
      destruct (rewritten linesep f X) as [data|] eqn:Hw;
        [cbv zeta; destruct (stored_version (Regular false data)) as [it|] eqn:Hst;
           [destruct (tomlkit.item_differs it X) eqn:Hd|]|];
        cbn [fst snd]; unfold history, after; cbn [trace pyproject_toml];
        repeat first [ progress cbn [List.rev app]
                     | rewrite List.rev_app_distr
                     | rewrite List.rev_involutive
                     | rewrite List.app_nil_r
                     | rewrite <- List.app_assoc ].
      * apply VerificationFailed; auto using item_differs_true.
      * apply item_differs_false in Hd. subst it. now apply Done.
      * now apply RereadFailure.
      * now apply WriteFailure.
Qed.

(** What [finish] returns, the file it leaves and the events of the run,
    after the events [evs] of a run that started at the file [f]. *)
Lemma finish_expected (dry_run : bool) (cur X : string)
    (f : path_state) (evs : list event) :
  (fst (finish linesep dry_run cur X (after (start f) evs)),
   pyproject_toml (snd (finish linesep dry_run cur X (after (start f) evs))),
   history (snd (finish linesep dry_run cur X (after (start f) evs))))
  = if dry_run then (Ok tt, f, (evs ++ [Log INFO DryRunEnabled])%list)
    else let '(r, f', evs') := write_and_verify linesep f cur X in
         (r, f', (evs ++ evs')%list).
Proof.
  destruct dry_run.
  - rewrite finish_dry_run, after_after. cbn [fst snd].
    now rewrite history_after_start.
  - rewrite finish_apply. unfold write_and_verify.
    change (pyproject_toml (after (start f) evs)) with f.
    destruct (rewritten linesep f X) as [data|];
      [cbv zeta; destruct (stored_version (Regular false data)) as [it|];
         [destruct (tomlkit.item_differs it X)|]|];
      cbn [fst snd]; unfold history, after; cbn [trace pyproject_toml];
      repeat first [ progress cbn [List.rev List.app]
                   | rewrite List.rev_app_distr
                   | rewrite List.rev_involutive
                   | rewrite List.app_nil_r
                   | rewrite <- List.app_assoc ];
      reflexivity.
Qed.

(** X1.  The command is the linear state machine of the table [expected]:
    for every argument, flag, file and user, the result of the run, the
    file it leaves and the sequence of its events are those that the table
    gives for these inputs.  So each run ends in exactly one way, which
    the inputs determine: manifest not found; manifest unreadable; version
    not a string; current version rejected; target rejected; prompt
    declined; dry run done; update failed, with the file as it was or
    empty; file unreadable after the write; verification failed; done. *)
Theorem every_run_ends (version : option string) (dry_run : bool) (f : path_state) :
  (fst (bump_command linesep ask version dry_run (start f)),
   pyproject_toml (snd (bump_command linesep ask version dry_run (start f))),
   history (snd (bump_command linesep ask version dry_run (start f))))
  = expected linesep ask version dry_run f.
Proof.
  assert (Hstop : forall e evs,
    bump_command linesep ask version dry_run (start f) = (Raise e, after (start f) evs) ->
    (fst (bump_command linesep ask version dry_run (start f)),
     pyproject_toml (snd (bump_command linesep ask version dry_run (start f))),
     history (snd (bump_command linesep ask version dry_run (start f))))
    = (Raise e, f, evs)).
  { intros e evs ->. cbn [fst snd]. now rewrite history_after_start. }
  assert (Hgo : forall cur X evs,
    bump_command linesep ask version dry_run (start f)
    = finish linesep dry_run cur X (after (start f) evs) ->
    (fst (bump_command linesep ask version dry_run (start f)),
     pyproject_toml (snd (bump_command linesep ask version dry_run (start f))),
     history (snd (bump_command linesep ask version dry_run (start f))))
    = if dry_run then (Ok tt, f, (evs ++ [Log INFO DryRunEnabled])%list)
      else let '(r, f', evs') := write_and_verify linesep f cur X in
           (r, f', (evs ++ evs')%list)).
  { intros cur X evs ->. apply finish_expected. }
  unfold expected.
  destruct (stored_version f) as [[cur|text]|] eqn:Hs.
  - assert (Hf : f <> Missing) by (intros ->; discriminate Hs).
    replace (match f with
             | Missing => _
             | _ => _
             end)
      with (match semver.parse cur with
            | Some v =>
                match determine_target ask version cur v with
                | Declined evs =>
                    (Raise (Exit 0), f,
                     ([PathExists; OpenRead; Log INFO (CurrentVersion cur)] ++ evs)%list)
                | Rejected evs s =>
                    (Raise (Exit 1), f,
                     ([PathExists; OpenRead; Log INFO (CurrentVersion cur)] ++ evs
                      ++ [Log ERROR (InvalidVersionFormat s); Log ERROR PleaseUseValid])%list)
                | Accepted evs X =>
                    if dry_run then
                      (Ok tt, f,
                       (([PathExists; OpenRead; Log INFO (CurrentVersion cur)] ++ evs
                         ++ [Log INFO (NewVersionWillBe X)])
                        ++ [Log INFO DryRunEnabled])%list)
                    else
                      let '(r, f', evs') := write_and_verify linesep f cur X in
                      (r, f',
                       (([PathExists; OpenRead; Log INFO (CurrentVersion cur)] ++ evs
                         ++ [Log INFO (NewVersionWillBe X)]) ++ evs')%list)
                end
            | None =>
                (Raise (Exit 1), f,
                 [PathExists; OpenRead; Log ERROR (InvalidSemanticVersion cur)])
            end)
      by (destruct f; [now elim Hf | reflexivity | reflexivity]).
    destruct (semver.parse cur) as [v|] eqn:Hp.
    + unfold determine_target. destruct (given version) eqn:Hg.
      * destruct version as [a|]; [|discriminate Hg]. cbn [or_empty].
        destruct (is_keyword a) eqn:Hk.
        -- apply Hgo. now apply keyword_run.
        -- destruct (semver.parse (strip_v a)) eqn:Hx.
           ++ apply Hgo.
              apply (explicit_run linesep ask (start f) cur v Hs Hp a dry_run Hg Hk).
              congruence.
           ++ apply Hstop. now apply invalid_explicit_run with (v := v).
      * destruct (ask (select_title cur) (select_choices cur v)) as [c|] eqn:Ha.
        -- destruct (Str.truthy c) eqn:Hc; cbn [negb].
           ++ destruct (Str.truthy (choice_bump_type c)) eqn:Hb.
              ** apply Hgo. apply choice_run; auto.
                 intros E. rewrite E in Hb. discriminate Hb.
              ** apply Hstop. apply unknown_choice_run with (c := c); auto.
                 destruct (choice_bump_type c); [reflexivity | discriminate Hb].
           ++ apply Hstop. apply declined_run; auto. now rewrite Ha.
        -- apply Hstop. apply declined_run; auto. now rewrite Ha.
    + apply Hstop. now apply invalid_current_run.
  - replace (match f with
             | Missing => _
             | _ => _
             end)
      with (Raise TypeError : result unit, f, [PathExists; OpenRead])
      by (destruct f; [discriminate Hs | reflexivity | reflexivity]).
    apply Hstop. now apply not_text_run with (text := text).
  - destruct f as [| |ro data] eqn:Hf.
    + apply Hstop. now apply missing_run.
    + apply Hstop. now apply unreadable_run.
    + apply Hstop. now apply unreadable_run.
Qed.

(** The events before the announcement are no write and no error. *)
Lemma preliminary_no_write (evs : list event) :
  forallb preliminary evs = true -> filter is_write evs = [].
Proof.
  induction evs as [|e evs IH]; [reflexivity|].
  cbn [forallb filter]. intros [He Hevs]%andb_prop.
  destruct e as [| | | |[] []]; try discriminate He; cbn; auto.
Qed.

Lemma preliminary_no_error (evs l : list event) :
  forallb preliminary evs = true -> errors_last (evs ++ l) = errors_last l.
Proof.
  induction evs as [|e evs IH]; [reflexivity|].
  cbn [forallb app errors_last]. intros [He Hevs]%andb_prop.
  destruct e as [| | | |[] []]; try discriminate He; cbn; auto.
Qed.

Lemma stop_shape e evs :
  stop ask e evs ->
  filter is_write evs = [] /\ errors_last evs = true
  /\ forall X, ~ In (Log INFO (NewVersionWillBe X)) evs.
Proof.
  intros H. destruct H; repeat split; try reflexivity;
    intros X Hin; cbn [In] in Hin;
    repeat (destruct Hin as [Hin|Hin]; [discriminate Hin|]); exact Hin.
Qed.

(** Splits a membership in the events of an ending: the events before
    the announcement, which are preliminary, or one of those that follow. *)
Ltac in_ending Hin Hpre :=
  apply in_app_iff in Hin as [Hin|Hin];
  [ apply (preliminary_In _ _ Hpre) in Hin; try discriminate Hin
  | cbn [In] in Hin;
    repeat (destruct Hin as [Hin|Hin]; [try discriminate Hin|]);
    try contradiction ].

Lemma ending_writes f dry_run r f' h :
  ending linesep ask f dry_run r f' h ->
  (length (filter is_write h) <= 1)%nat
  /\ (forall data, In (FileWritten data) h ->
        dry_run = false /\ f' = Regular false data
        /\ exists X, In (Log INFO (NewVersionWillBe X)) h
                     /\ rewritten linesep f X = Some data)
  /\ ((forall data, ~ In (FileWritten data) h) ->
      f' = f
      \/ (dry_run = false /\ r = Raise (Exit 1) /\ f' = Regular false ""
          /\ In (Log ERROR FailedToUpdate) h
          /\ exists X, In (Log INFO (NewVersionWillBe X)) h
                       /\ opened_for_writing f X = true
                       /\ rewritten linesep f X = None)).
Proof.
  intros E.
  destruct E as [dr e evs Hstop|X evs Hpre HX|X evs Hpre HX Hw
                 |X evs data Hpre HX Hw Hst|X evs data it Hpre HX Hw Hst Hne
                 |cur X evs data Hpre HX Hw Hst].
  - destruct (stop_shape _ _ Hstop) as (Hq & _ & _). rewrite Hq.
    split; [cbn; auto|]. split; [|now left].
    intros data Hin; exfalso.
    now apply (stop_writes_nothing _ _ _ Hstop data).
  - rewrite filter_app, (preliminary_no_write _ Hpre). cbn.
    split; [auto|]. split; [|now left].
    intros data Hin; exfalso; in_ending Hin Hpre.
  - rewrite filter_app, (preliminary_no_write _ Hpre). cbn.
    split; [auto|]. split.
    + intros data Hin; exfalso; in_ending Hin Hpre.
    + intros _. unfold after_failed_update.
      destruct (opened_for_writing f X) eqn:Ho; [right | now left].
      repeat split.
      * apply in_app_iff. right. cbn. auto.
      * exists X. split; [|now split].
        apply in_app_iff. right. now left.
  - rewrite filter_app, (preliminary_no_write _ Hpre). cbn. split; [auto|]. split.
    + intros data' Hin. in_ending Hin Hpre. injection Hin as <-.
      repeat split. exists X. split; [|exact Hw].
      apply in_app_iff. right. now left.
    + intros Hno. exfalso. apply (Hno data), in_app_iff. right. cbn. auto.
  - rewrite filter_app, (preliminary_no_write _ Hpre). cbn. split; [auto|]. split.
    + intros data' Hin. in_ending Hin Hpre. injection Hin as <-.
      repeat split. exists X. split; [|exact Hw].
      apply in_app_iff. right. now left.
    + intros Hno. exfalso. apply (Hno data), in_app_iff. right. cbn. auto.
  - rewrite filter_app, (preliminary_no_write _ Hpre). cbn. split; [auto|]. split.
    + intros data' Hin. in_ending Hin Hpre. injection Hin as <-.
      repeat split. exists X. split; [|exact Hw].
      apply in_app_iff. right. now left.
    + intros Hno. exfalso. apply (Hno data), in_app_iff. right. cbn. auto.
Qed.

(** X2.  A run writes the file at most once, and only without [dry_run];
    what is written is the update of the file found at the start with the
    version announced, and it is what the file holds at the end.  A run
    that writes nothing leaves the file as it was, with one exception: an
    update that fails after it has opened the file for writing, on a
    writable manifest whose text parses and whose version can be set,
    leaves the file empty; the run has then logged "Failed to update" and
    exits with code 1. *)
Theorem file_changes_only_by_one_write
    (version : option string) (dry_run : bool) (f : path_state) :
  (length (filter is_write
             (history (snd (bump_command linesep ask version dry_run (start f))))) <= 1)%nat
  /\ (forall data,
        In (FileWritten data)
           (history (snd (bump_command linesep ask version dry_run (start f)))) ->
        dry_run = false
        /\ pyproject_toml (snd (bump_command linesep ask version dry_run (start f)))
           = Regular false data
        /\ exists X,
             In (Log INFO (NewVersionWillBe X))
                (history (snd (bump_command linesep ask version dry_run (start f))))
             /\ rewritten linesep f X = Some data)
  /\ ((forall data,
         ~ In (FileWritten data)
              (history (snd (bump_command linesep ask version dry_run (start f))))) ->
      pyproject_toml (snd (bump_command linesep ask version dry_run (start f))) = f
      \/ (dry_run = false
          /\ fst (bump_command linesep ask version dry_run (start f)) = Raise (Exit 1)
          /\ pyproject_toml (snd (bump_command linesep ask version dry_run (start f)))
             = Regular false ""
          /\ In (Log ERROR FailedToUpdate)
                (history (snd (bump_command linesep ask version dry_run (start f))))
          /\ exists X,
               In (Log INFO (NewVersionWillBe X))
                  (history (snd (bump_command linesep ask version dry_run (start f))))
               /\ opened_for_writing f X = true
               /\ rewritten linesep f X = None)).
Proof. exact (ending_writes _ _ _ _ _ (run_ending version dry_run f)). Qed.

Lemma ending_announcement f dry_run r f' h :
  ending linesep ask f dry_run r f' h ->
  forall X, In (Log INFO (NewVersionWillBe X)) h ->
    semver.parse X <> None
    /\ (forall Y, In (Log INFO (NewVersionWillBe Y)) h -> Y = X)
    /\ (forall data, In (FileWritten data) h ->
          exists before rest,
            h = (before ++ Log INFO (NewVersionWillBe X) :: rest)%list
            /\ In (FileWritten data) rest
            /\ forall data', ~ In (FileWritten data') before).
Proof.
  intros E.
  destruct E as [dr e evs Hstop|X evs Hpre HX|X evs Hpre HX Hw
                 |X evs data Hpre HX Hw Hst|X evs data it Hpre HX Hw Hst Hne
                 |cur X evs data Hpre HX Hw Hst];
    intros X' Hin.
  - exfalso. now apply (proj2 (proj2 (stop_shape _ _ Hstop)) X').
  - in_ending Hin Hpre. injection Hin as <-. split; [exact HX|]. split.
    + intros Y HY. in_ending HY Hpre. now injection HY.
    + intros data Hd. exfalso. in_ending Hd Hpre.
  - in_ending Hin Hpre. injection Hin as <-. split; [exact HX|]. split.
    + intros Y HY. in_ending HY Hpre. now injection HY.
    + intros data Hd. exfalso. in_ending Hd Hpre.
  - in_ending Hin Hpre. injection Hin as <-. split; [exact HX|]. split.
    + intros Y HY. in_ending HY Hpre. now injection HY.
    + intros data' Hd. eexists evs, _. split; [reflexivity|]. split.
      * in_ending Hd Hpre. injection Hd as <-. cbn. auto.
      * intros d Hb. now pose proof (preliminary_In _ _ Hpre Hb).
  - in_ending Hin Hpre. injection Hin as <-. split; [exact HX|]. split.
    + intros Y HY. in_ending HY Hpre. now injection HY.
    + intros data' Hd. eexists evs, _. split; [reflexivity|]. split.
      * in_ending Hd Hpre. injection Hd as <-. cbn. auto.
      * intros d Hb. now pose proof (preliminary_In _ _ Hpre Hb).
  - in_ending Hin Hpre. injection Hin as <-. split; [exact HX|]. split.
    + intros Y HY. in_ending HY Hpre. now injection HY.
    + intros data' Hd. eexists evs, _. split; [reflexivity|]. split.
      * in_ending Hd Hpre. injection Hd as <-. cbn. auto.
      * intros d Hb. now pose proof (preliminary_In _ _ Hpre Hb).
Qed.

(** X3.  A version that the command announces is one that [semver]
    accepts, whatever the request it comes from; a run announces at most
    one version, and a write comes after the announcement, never before. *)
Theorem announced_version_is_valid
    (version : option string) (dry_run : bool) (f : path_state) (X : string) :
  In (Log INFO (NewVersionWillBe X))
     (history (snd (bump_command linesep ask version dry_run (start f)))) ->
  semver.parse X <> None
  /\ (forall Y,
        In (Log INFO (NewVersionWillBe Y))
           (history (snd (bump_command linesep ask version dry_run (start f)))) ->
        Y = X)
  /\ (forall data,
        In (FileWritten data)
           (history (snd (bump_command linesep ask version dry_run (start f)))) ->
        exists before rest,
          history (snd (bump_command linesep ask version dry_run (start f)))
          = (before ++ Log INFO (NewVersionWillBe X) :: rest)%list
          /\ In (FileWritten data) rest
          /\ forall data', ~ In (FileWritten data') before).
Proof. exact (ending_announcement _ _ _ _ _ (run_ending version dry_run f) X). Qed.

Lemma ending_errors_last f dry_run r f' h :
  ending linesep ask f dry_run r f' h -> errors_last h = true.
Proof.
  intros E. destruct E as [dr e evs Hstop| | | | | ];
    [exact (proj1 (proj2 (stop_shape _ _ Hstop)))|..];
    now rewrite preliminary_no_error.
Qed.

(** X4.  The command stops at its first error: once an error record is
    logged, a run logs nothing but error records and does nothing else (no
    read, no write, no prompt). *)
Theorem errors_end_the_run
    (version : option string) (dry_run : bool) (f : path_state) :
  errors_last (history (snd (bump_command linesep ask version dry_run (start f)))) = true.
Proof. exact (ending_errors_last _ _ _ _ _ (run_ending version dry_run f)). Qed.

(** ** One run after another *)

Lemma done_leaves_valid f r f' h :
  ending linesep ask f false r f' h ->
  r = Ok tt ->
  exists X v,
    stored_version f' = Some (tomlkit.StringItem X)
    /\ semver.parse X = Some v
    /\ In (Log INFO (NewVersionWillBe X)) h.
Proof.
  intros E. inversion E; subst; try discriminate. intros _.
  destruct (semver.parse X) as [v|] eqn:Hp; [|congruence].
  exists X, v. repeat split; auto.
  apply in_app_iff. right. now left.
Qed.

(** X5.  A run that bumps the version leaves a manifest that the command
    accepts: its version is the string announced, which [semver] parses,
    so the next run, for any user and with or without [dry_run], passes
    the reading of the manifest and, for a keyword, announces the bump of
    that version. *)
Theorem bumps_chain (version : option string) (f : path_state) :
  fst (bump_command linesep ask version false (start f)) = Ok tt ->
  exists X v,
    In (Log INFO (NewVersionWillBe X))
       (history (snd (bump_command linesep ask version false (start f))))
    /\ fst (get_current_version (snd (bump_command linesep ask version false (start f))))
       = Ok (tomlkit.StringItem X)
    /\ semver.parse X = Some v
    /\ forall ask' kw dry_run,
         is_keyword kw = true ->
         bump_command linesep ask' (Some kw) dry_run
           (start (pyproject_toml (snd (bump_command linesep ask version false (start f)))))
         = finish linesep dry_run X (semver.to_string (bumped kw v))
             (after (start (pyproject_toml
                              (snd (bump_command linesep ask version false (start f)))))
                [PathExists; OpenRead; Log INFO (CurrentVersion X);
                 Log INFO (BumpingUsing kw);
                 Log INFO (NewVersionWillBe (semver.to_string (bumped kw v)))]).
Proof.
  intros Hok.
  destruct (done_leaves_valid _ _ _ _ (run_ending version false f) Hok)
    as (X & v & Hs & Hp & Hin).
  exists X, v. split; [exact Hin|]. split; [|split; [exact Hp|]].
  - now apply get_current_version_stored.
  - intros ask' kw dry_run Hk. now apply keyword_run.
Qed.

(** ** The prompt *)

(** What [finish] adds to the events: no prompt, and nothing is removed. *)
Lemma finish_trace dry_run cur X (w : world) :
  exists l,
    trace (snd (finish linesep dry_run cur X w)) = (l ++ trace w)%list
    /\ forallb (fun e => negb (is_prompt e)) l = true.
Proof.
  destruct dry_run.
  - rewrite finish_dry_run. now exists [Log INFO DryRunEnabled].
  - rewrite finish_apply.
    destruct (rewritten linesep (pyproject_toml w) X) as [data|].
    + cbv zeta. destruct (stored_version (Regular false data)) as [it|].
      * destruct (tomlkit.item_differs it X).
        -- now exists [Log ERROR (UpdateFailed X (tomlkit.item_text it)); OpenRead;
                       FileWritten data; OpenRead; Log INFO UpdatingPyproject].
        -- now exists [Log INFO DontForgetLock; Log SUCCESS (VersionBumped cur X);
                       OpenRead; FileWritten data; OpenRead;
                       Log INFO UpdatingPyproject].
      * now exists [Log ERROR FailedToReadVersion; OpenRead; FileWritten data;
                    OpenRead; Log INFO UpdatingPyproject].
    + now exists [Log ERROR FailedToUpdate; OpenRead; Log INFO UpdatingPyproject].
Qed.

(** A run with an argument, up to line 113: its events are no prompt. *)
Lemma argument_run (a : string) (w : world) :
  given (Some a) = true ->
  exists evs,
    forallb (fun e => negb (is_prompt e)) evs = true
    /\ ((exists e, forall dry_run,
           bump_command linesep ask (Some a) dry_run w = (Raise e, after w evs))
        \/ (exists cur X, forall dry_run,
              bump_command linesep ask (Some a) dry_run w
              = finish linesep dry_run cur X (after w evs))).
Proof.
  intros Hg.
  destruct (stored_version (pyproject_toml w)) as [[cur|text]|] eqn:Hs.
  - destruct (semver.parse cur) as [v|] eqn:Hp.
    + destruct (is_keyword a) eqn:Hk.
      * eexists. split; [|right; exists cur; eexists; intros dry_run;
                          apply keyword_run with (v := v); eassumption].
        reflexivity.
      * destruct (semver.parse (strip_v a)) eqn:Hx.
        -- eexists. split; [|right; exists cur; eexists; intros dry_run;
                             apply explicit_run with (v := v); solve [eassumption | congruence]].
           reflexivity.
        -- eexists. split; [|left; eexists; intros dry_run;
                             apply invalid_explicit_run with (v := v); eassumption].
           reflexivity.
    + eexists. split; [|left; eexists; intros dry_run; apply invalid_current_run; eassumption].
      reflexivity.
  - eexists. split; [|left; eexists; intros dry_run;
                      apply not_text_run with (text := text); eassumption].
    reflexivity.
  - destruct (pyproject_toml w) eqn:Hf.
    + eexists. split; [|left; eexists; intros dry_run; apply missing_run; eassumption].
      reflexivity.
    + eexists. split; [|left; eexists; intros dry_run; apply unreadable_run;
                        [rewrite Hf; discriminate | rewrite Hf; exact Hs]].
      reflexivity.
    + eexists. split; [|left; eexists; intros dry_run; apply unreadable_run;
                        [rewrite Hf; discriminate | rewrite Hf; exact Hs]].
      reflexivity.
Qed.

Lemma filter_rev_none {A} (p : A -> bool) (l : list A) :
  forallb (fun e => negb (p e)) l = true -> filter p (List.rev l) = [].
Proof.
  intros H. induction l as [|x l IH]; [reflexivity|].
  cbn [forallb] in H. apply andb_prop in H as [Hx Hl].
  cbn [List.rev]. rewrite filter_app, (IH Hl). cbn.
  apply negb_true_iff in Hx. now rewrite Hx.
Qed.

(** X6.  The command is interactive exactly when the argument is absent or
    empty.  With any other argument the run does not depend on the user
    and never prompts.  An empty argument is the run without argument,
    and that run, on a manifest with a valid version, prompts exactly
    once, with the title and the three choices made from the current
    version. *)
Theorem prompt_only_without_argument
    (version : option string) (dry_run : bool) (f : path_state) :
  if given version then
    (forall ask', bump_command linesep ask version dry_run (start f)
                  = bump_command linesep ask' version dry_run (start f))
    /\ (forall e, In e (history (snd (bump_command linesep ask version dry_run (start f)))) ->
                  is_prompt e = false)
  else
    bump_command linesep ask version dry_run (start f)
    = bump_command linesep ask None dry_run (start f)
    /\ (forall cur v,
          fst (get_current_version (start f)) = Ok (tomlkit.StringItem cur) ->
          semver.parse cur = Some v ->
          filter is_prompt
            (history (snd (bump_command linesep ask version dry_run (start f))))
          = [Prompt (select_title cur) (select_choices cur v)]).
Proof.
  destruct (given version) eqn:Hg.
  - split.
    + intros ask'. unfold bump_command. rewrite Hg. reflexivity.
    + destruct version as [a|]; [|discriminate Hg].
      destruct (argument_run a (start f) Hg) as (evs & Hevs & [[e Hrun]|(cur & X & Hrun)]);
        rewrite (Hrun dry_run); intros ev Hin; unfold history in Hin;
        apply in_rev in Hin.
      * apply in_trace_after in Hin as [Hin|[]].
        apply negb_true_iff. revert ev Hin. now apply forallb_forall.
      * destruct (finish_trace dry_run cur X (after (start f) evs)) as (l & Ht & Hl).
        rewrite Ht in Hin. apply negb_true_iff.
        apply in_app_iff in Hin as [Hin|Hin].
        -- revert ev Hin. now apply forallb_forall.
        -- apply in_trace_after in Hin as [Hin|[]].
           revert ev Hin. now apply forallb_forall.
  - split.
    + destruct version as [[|c a]|]; [reflexivity | discriminate Hg | reflexivity].
    + intros cur v Hs%get_current_version_stored Hp.
      destruct (given (ask (select_title cur) (select_choices cur v))) eqn:Hc.
      * destruct (ask (select_title cur) (select_choices cur v)) as [c|] eqn:Ha;
          [|discriminate Hc].
        destruct (string_dec (choice_bump_type c) "") as [Hb|Hb].
        -- rewrite (unknown_choice_run linesep ask (start f) cur v Hs Hp
                      version dry_run c Hg Ha Hc Hb).
           cbn [snd]. now rewrite history_after_start.
        -- rewrite (choice_run linesep ask (start f) cur v Hs Hp
                      version dry_run c Hg Ha Hc Hb).
           match goal with
           | |- context [finish linesep dry_run cur ?X (after (start f) ?evs)] =>
               destruct (finish_trace dry_run cur X (after (start f) evs))
                 as (l & Ht & Hl)
           end.
           unfold history. rewrite Ht. unfold after; cbn [trace start].
           rewrite List.app_nil_r, List.rev_app_distr, List.rev_involutive, filter_app.
           now rewrite (filter_rev_none _ _ Hl).
      * rewrite (declined_run linesep ask (start f) cur v Hs Hp version dry_run Hg Hc).
        cbn [snd]. now rewrite history_after_start.
Qed.

(** X7.  A user who picks one of the three choices that the prompt offers
    picks a bump: the command announces the patch, minor or major bump of
    the current version (never an "Invalid version format"), the first
    choice being the patch bump, the second the minor and the third the
    major. *)
Theorem offered_choice_is_a_bump
    (version : option string) (dry_run : bool) (w : world)
    (cur : string) (v : semver.Version) (n : nat) (choice : string) :
  given version = false ->
  fst (get_current_version w) = Ok (tomlkit.StringItem cur) ->
  semver.parse cur = Some v ->
  nth_error (select_choices cur v) n = Some choice ->
  ask (select_title cur) (select_choices cur v) = Some choice ->
  exists kw,
    nth_error ["patch"; "minor"; "major"] n = Some kw
    /\ bump_command linesep ask version dry_run w
       = finish linesep dry_run cur (semver.to_string (bumped kw v))
           (after w [PathExists; OpenRead; Log INFO (CurrentVersion cur);
                     Prompt (select_title cur) (select_choices cur v);
                     Log INFO (BumpingUsing kw);
                     Log INFO (NewVersionWillBe (semver.to_string (bumped kw v)))]).
Proof.
  intros Hg Hs%get_current_version_stored Hp Hn Ha.
  assert (Hc : exists kw, nth_error ["patch"; "minor"; "major"] n = Some kw
                          /\ choice_bump_type choice = kw /\ kw <> ""
                          /\ given (Some choice) = true).
  { destruct n as [|[|[|n]]]; cbn in Hn.
    - injection Hn as <-. exists "patch". repeat split. discriminate.
    - injection Hn as <-. exists "minor". repeat split. discriminate.
    - injection Hn as <-. exists "major". repeat split. discriminate.
    - destruct n; discriminate Hn. }
  destruct Hc as (kw & Hkw & <- & Hne & Hgc).
  exists (choice_bump_type choice). split; [exact Hkw|].
  now apply choice_run.
Qed.

(** ** Keyword bumps go forward *)

Lemma bumped_greater (kw : string) (v : semver.Version) :
  core_lt v (bumped kw v).
Proof.
  unfold bumped, core_lt.
  destruct (kw =? "patch"); [|destruct (kw =? "minor")]; cbn; lia.
Qed.

Lemma core_lt_irrefl (v : semver.Version) : ~ core_lt v v.
Proof. unfold core_lt. lia. Qed.

(** X8.  A keyword request on a valid manifest announces a version that is
    greater than the current one in the order of (major, minor, patch), so
    it is never the current version text, even when the current version is
    a pre-release of the version that the numbers alone would give. *)
Theorem keyword_bump_increases
    (kw : string) (dry_run : bool) (f : path_state)
    (cur : string) (v : semver.Version) :
  fst (get_current_version (start f)) = Ok (tomlkit.StringItem cur) ->
  semver.parse cur = Some v ->
  is_keyword kw = true ->
  exists X next,
    In (Log INFO (NewVersionWillBe X))
       (history (snd (bump_command linesep ask (Some kw) dry_run (start f))))
    /\ semver.parse X = Some next
    /\ core_lt v next
    /\ X <> cur.
Proof.
  intros Hs%get_current_version_stored Hp Hk.
  exists (semver.to_string (bumped kw v)), (bumped kw v).
  split; [|split; [apply parse_bumped|split; [apply bumped_greater|]]].
  - rewrite (keyword_run linesep ask (start f) cur v Hs Hp kw dry_run Hk).
    unfold history. apply -> in_rev.
    destruct (finish_trace dry_run cur (semver.to_string (bumped kw v))
                (after (start f)
                   [PathExists; OpenRead; Log INFO (CurrentVersion cur);
                    Log INFO (BumpingUsing kw);
                    Log INFO (NewVersionWillBe (semver.to_string (bumped kw v)))]))
      as (l & -> & _).
    apply in_app_iff. right. cbn. auto.
  - intros E. pose proof (parse_bumped kw v) as Hb. rewrite E, Hp in Hb.
    injection Hb as Hb. apply (core_lt_irrefl v). rewrite Hb at 2.
    apply bumped_greater.
Qed.

(** ** The two helpers *)

(** X9.  [get_current_version] never changes the file and never raises
    anything but [typer.Exit(1)]: it returns the item after one read, or
    logs one error and exits.  It exits exactly when there is no regular
    file to open, or its text does not parse, or the parsed document has
    no [project.version]; whether the file is read-only plays no role. *)
Theorem get_current_version_fails_cleanly (w : world) :
  pyproject_toml (snd (get_current_version w)) = pyproject_toml w
  /\ ((exists it, get_current_version w = (Ok it, after w [OpenRead]))
      \/ get_current_version w
         = (Raise (Exit 1), after w [OpenRead; Log ERROR FailedToReadVersion]))
  /\ (fst (get_current_version w) = Raise (Exit 1) <->
      forall ro data doc,
        pyproject_toml w = Regular ro data ->
        tomlkit.parse (universal_newlines data) = Some doc ->
        tomlkit.get_project_version doc = None).
Proof.
  rewrite get_current_version_eq. unfold stored_version.
  destruct w as [f t]. cbn [pyproject_toml].
  destruct f as [| |ro data].
  - cbn. repeat split; auto; discriminate.
  - cbn. repeat split; auto; discriminate.
  - destruct (tomlkit.parse (universal_newlines data)) as [doc|] eqn:Hd.
    + destruct (tomlkit.get_project_version doc) as [it|] eqn:Hi; cbn.
      * split; [reflexivity|]. split; [left; now exists it|]. split.
        -- discriminate.
        -- intros H. specialize (H ro data doc eq_refl Hd). congruence.
      * split; [reflexivity|]. split; [now right|]. split; [|reflexivity].
        intros _ ro' data' doc' [= <- <-] Hd'. congruence.
    + cbn. split; [reflexivity|]. split; [now right|]. split; [|reflexivity].
      intros _ ro' data' doc' [= <- <-] Hd'. congruence.
Qed.

(** X10.  [update_version] never raises anything but [typer.Exit(1)]: it
    reads once and then stores the new text, or logs one error and exits.
    It stores the text exactly when the manifest is a writable regular
    file whose text parses and whose version can be set, and the document
    can be serialised to a text that the platform can encode.  When it
    fails before it opens the file for writing, the file is as it was: a
    manifest that is missing, cannot be opened or is read-only is never
    created or changed.  When it fails after that, because the
    serialisation or the encoding fails, the file is left empty. *)
Theorem update_version_fails_cleanly (new_version : string) (w : world) :
  ((exists data,
       update_version linesep new_version w
       = (Ok tt, mkWorld (Regular false data) (FileWritten data :: OpenRead :: trace w)))
   \/ update_version linesep new_version w
      = (Raise (Exit 1), after w [OpenRead; Log ERROR FailedToUpdate])
   \/ update_version linesep new_version w
      = (Raise (Exit 1),
         mkWorld (Regular false "") (Log ERROR FailedToUpdate :: OpenRead :: trace w)))
  /\ (fst (update_version linesep new_version w) = Ok tt <->
      exists data doc doc' text,
        pyproject_toml w = Regular false data
        /\ tomlkit.parse (universal_newlines data) = Some doc
        /\ tomlkit.set_project_version doc new_version = Some doc'
        /\ tomlkit.dumps doc' = Some text
        /\ encodable text = true)
  /\ ((forall data doc,
         pyproject_toml w = Regular false data ->
         tomlkit.parse (universal_newlines data) = Some doc ->
         tomlkit.set_project_version doc new_version = None) ->
      update_version linesep new_version w
      = (Raise (Exit 1), after w [OpenRead; Log ERROR FailedToUpdate]))
  /\ (forall data doc doc',
        pyproject_toml w = Regular false data ->
        tomlkit.parse (universal_newlines data) = Some doc ->
        tomlkit.set_project_version doc new_version = Some doc' ->
        (forall text, tomlkit.dumps doc' = Some text -> encodable text = false) ->
        update_version linesep new_version w
        = (Raise (Exit 1),
           mkWorld (Regular false "") (Log ERROR FailedToUpdate :: OpenRead :: trace w)))
  /\ ((forall data, pyproject_toml w <> Regular false data) ->
      update_version linesep new_version w
      = (Raise (Exit 1), after w [OpenRead; Log ERROR FailedToUpdate])).
Proof.
  rewrite update_version_eq. unfold rewritten, after_failed_update, opened_for_writing.
  destruct w as [f t]. cbn [pyproject_toml trace].
  destruct f as [| |[|] data].
  1-3: split; [right; now left|]; split;
       [split; [discriminate | intros (d & doc & doc' & text & H & _); discriminate H]|];
       split; [reflexivity|]; split; [|reflexivity];
       intros d doc doc' H; discriminate H.
  destruct (tomlkit.parse (universal_newlines data)) as [doc|] eqn:Hd.
  - destruct (tomlkit.set_project_version doc new_version) as [doc'|] eqn:Hd'.
    + destruct (tomlkit.dumps doc') as [text|] eqn:Ht;
        [destruct (encodable text) eqn:He|].
      * split; [left; now eexists|]. split; [|split; [|split]].
        -- split; [intros _; now exists data, doc, doc', text | reflexivity].
        -- intros H. specialize (H data doc eq_refl Hd). congruence.
        -- intros d doc0 doc0' [= <-] H1 H2 H. exfalso.
           assert (E : doc0 = doc) by congruence. subst doc0.
           assert (E : doc0' = doc') by congruence. subst doc0'.
           specialize (H text Ht). congruence.
        -- intros H. now elim (H data).
      * split; [right; now right|]. split; [|split; [|split]].
        -- split; [discriminate|].
           intros (d & doc0 & doc0' & text0 & [= <-] & H1 & H2 & H3 & H4). exfalso.
           assert (E : doc0 = doc) by congruence. subst doc0.
           assert (E : doc0' = doc') by congruence. subst doc0'.
           congruence.
        -- intros H. specialize (H data doc eq_refl Hd). congruence.
        -- reflexivity.
        -- intros H. now elim (H data).
      * split; [right; now right|]. split; [|split; [|split]].
        -- split; [discriminate|].
           intros (d & doc0 & doc0' & text0 & [= <-] & H1 & H2 & H3 & H4). exfalso.
           assert (E : doc0 = doc) by congruence. subst doc0.
           assert (E : doc0' = doc') by congruence. subst doc0'.
           congruence.
        -- intros H. specialize (H data doc eq_refl Hd). congruence.
        -- reflexivity.
        -- intros H. now elim (H data).
    + split; [right; now left|]. split; [|split; [|split]].
      * split; [discriminate|].
        intros (d & doc0 & doc0' & text0 & [= <-] & H1 & H2 & _). congruence.
      * reflexivity.
      * intros d doc0 doc0' [= <-] H1 H2. congruence.
      * reflexivity.
  - split; [right; now left|]. split; [|split; [|split]].
    + split; [discriminate|].
      intros (d & doc0 & doc0' & text0 & [= <-] & H1 & _). congruence.
    + reflexivity.
    + intros d doc0 doc0' [= <-] H1. congruence.
    + reflexivity.
Qed.

(** ** Line endings *)

(** What is read in text mode has no CR, so reading it again changes
    nothing. *)
Lemma universal_newlines_no_cr (s : string) :
  Str.all (fun c => negb (Ascii.eqb c Str.CR)) (universal_newlines s) = true.
Proof.
  assert (H : forall n s, (String.length s <= n)%nat ->
                Str.all (fun c => negb (Ascii.eqb c Str.CR)) (universal_newlines s) = true).
  { clear s. induction n as [|n IH]; intros [|c r] Hlen; try reflexivity.
    - cbn in Hlen. lia.
    - cbn [String.length] in Hlen. cbn [universal_newlines].
      destruct (Ascii.eqb c Str.CR) eqn:Hc.
      + cbn [Str.all]. replace (negb (Ascii.eqb Str.LF Str.CR)) with true by reflexivity.
        cbn [andb]. destruct r as [|c' r']; [reflexivity|].
        cbn [String.length] in Hlen.
        destruct (Ascii.eqb c' Str.LF); apply IH; cbn [String.length]; lia.
      + cbn [Str.all]. rewrite Hc. cbn [negb andb]. apply IH. lia. }
  now apply (H (String.length s)).
Qed.

Lemma universal_newlines_idempotent (s : string) :
  universal_newlines (universal_newlines s) = universal_newlines s.
Proof. apply universal_newlines_id, universal_newlines_no_cr. Qed.

(** The computations of the module cannot tell apart two states that are
    [alike], for two files of the same reading: the rules, one per
    construct. *)
Section Alike.

Variables f1 f2 : path_state.
Hypothesis Hsame : same_reading f1 f2.

Lemma respects_ret {A} (a : A) : respects f1 f2 (ret a).
Proof. intros w1 w2 H. now split. Qed.

Lemma respects_raise {A} (e : exn) : respects f1 f2 (@raise A e).
Proof. intros w1 w2 H. now split. Qed.

Lemma respects_bind {A B} (m : M A) (k : A -> M B) :
  respects f1 f2 m -> (forall a, respects f1 f2 (k a)) -> respects f1 f2 (bind m k).
Proof.
  intros Hm Hk w1 w2 H. unfold bind. destruct (Hm w1 w2 H) as [Hr Hw].
  destruct (m w1) as [r1 w1'], (m w2) as [r2 w2']. cbn [fst snd] in *. subst r2.
  destruct r1 as [a|e]; [now apply Hk | now split].
Qed.

Lemma respects_try_except {A} (body handler : M A) :
  respects f1 f2 body -> respects f1 f2 handler ->
  respects f1 f2 (try_except body handler).
Proof.
  intros Hb Hh w1 w2 H. unfold try_except. destruct (Hb w1 w2 H) as [Hr Hw].
  destruct (body w1) as [r1 w1'], (body w2) as [r2 w2']. cbn [fst snd] in *. subst r2.
  destruct r1 as [a|e]; [now split | now apply Hh].
Qed.

Lemma respects_emit (e : event) : respects f1 f2 (emit e).
Proof.
  intros w1 w2 [Ht Hf]. split; [reflexivity|]. split; cbn; [now rewrite Ht | exact Hf].
Qed.

Lemma respects_call {A} (r : option A) : respects f1 f2 (call r).
Proof. destruct r; [apply respects_ret | apply respects_raise]. Qed.

Lemma respects_path_exists : respects f1 f2 path_exists.
Proof.
  apply respects_bind; [apply respects_emit|]. intros _ w1 w2 [Ht Hf].
  cbn [fst snd]. split; [|now split].
  destruct Hf as [[-> ->]| ->]; [|reflexivity].
  destruct f1, f2; cbn in Hsame; now try contradiction.
Qed.

Lemma respects_read_text : respects f1 f2 read_text.
Proof.
  apply respects_bind; [apply respects_emit|]. intros _ w1 w2 [Ht Hf].
  assert (Ha : alike f1 f2 w1 w2) by now split.
  destruct Hf as [[E1 E2]| E].
  - rewrite E1, E2. destruct f1, f2; cbn in Hsame; try contradiction;
      cbn [fst snd]; try (now split).
    destruct Hsame as [_ ->]. now split.
  - rewrite E. destruct (pyproject_toml w2); cbn [fst snd]; now split.
Qed.

Lemma respects_open_write : respects f1 f2 open_write.
Proof.
  intros w1 w2 [Ht Hf]. unfold open_write.
  assert (Ha : alike f1 f2 w1 w2) by now split.
  destruct Hf as [[E1 E2]| E].
  - rewrite E1, E2.
    destruct f1 as [| |[|] data1], f2 as [| |[|] data2]; cbn in Hsame;
      try contradiction;
      try (apply proj1 in Hsame; discriminate Hsame);
      cbn [fst snd]; try (now split);
      (split; [reflexivity|]; split; [exact Ht | now right]).
  - rewrite E. destruct (pyproject_toml w2) as [| |[|] data]; cbn [fst snd];
      try (now split);
      (split; [reflexivity|]; split; [exact Ht | now right]).
Qed.

Lemma respects_file_write (text : string) : respects f1 f2 (file_write linesep text).
Proof.
  intros w1 w2 [Ht Hf]. unfold file_write.
  destruct (encodable text); cbn [fst snd]; [|now split].
  split; [reflexivity|]. split; cbn; [now rewrite Ht | now right].
Qed.

Lemma respects_questionary_select (title : string) (choices : list string) :
  respects f1 f2 (questionary_select ask title choices).
Proof.
  apply respects_bind; [apply respects_emit | intros; apply respects_ret].
Qed.

(** Applies the rules along a computation, case by case on its tests. *)
Ltac respect :=
  repeat first
    [ apply respects_ret
    | apply respects_raise
    | apply respects_emit
    | apply respects_call
    | apply respects_path_exists
    | apply respects_read_text
    | apply respects_open_write
    | apply respects_file_write
    | apply respects_questionary_select
    | apply respects_try_except
    | apply respects_bind; [|intros]
    | match goal with
      | |- respects _ _ (if ?b then _ else _) => destruct b
      | |- respects _ _ (match ?x with _ => _ end) => destruct x
      end ].

Lemma respects_get_current_version : respects f1 f2 get_current_version.
Proof. unfold get_current_version, logger. respect. Qed.

Lemma respects_update_version (new_version : string) :
  respects f1 f2 (update_version linesep new_version).
Proof. unfold update_version, logger. respect. Qed.

Lemma respects_bump_command (version : option string) (dry_run : bool) :
  respects f1 f2 (bump_command linesep ask version dry_run).
Proof.
  unfold bump_command, logger.
  repeat first
    [ apply respects_get_current_version
    | apply respects_update_version
    | progress respect ].
Qed.

End Alike.

(** X11.  The line endings of the manifest do not matter to the command:
    on a manifest and on the same manifest with its line endings CR LF
    and CR turned into LF, a run gives the same result and the same events,
    and it leaves both files as they were or leaves the same bytes in
    both.  The two helpers return the same on both. *)
Theorem line_endings_do_not_matter
    (version : option string) (dry_run ro : bool) (data : string) :
  let f1 := Regular ro data in
  let f2 := Regular ro (universal_newlines data) in
  let run1 := bump_command linesep ask version dry_run (start f1) in
  let run2 := bump_command linesep ask version dry_run (start f2) in
  fst run1 = fst run2
  /\ history (snd run1) = history (snd run2)
  /\ ((pyproject_toml (snd run1) = f1 /\ pyproject_toml (snd run2) = f2)
      \/ pyproject_toml (snd run1) = pyproject_toml (snd run2))
  /\ fst (get_current_version (start f1)) = fst (get_current_version (start f2))
  /\ (forall new_version,
        fst (update_version linesep new_version (start f1))
        = fst (update_version linesep new_version (start f2))).
Proof.
  intros f1 f2 run1 run2.
  assert (Hsame : same_reading f1 f2).
  { split; [reflexivity|]. symmetry. apply universal_newlines_idempotent. }
  assert (Ha : alike f1 f2 (start f1) (start f2)).
  { split; [reflexivity|]. now left. }
  destruct (respects_bump_command f1 f2 Hsame version dry_run _ _ Ha) as [Hr [Ht Hf]].
  fold run1 run2 in Hr, Ht, Hf.
  split; [exact Hr|]. split; [unfold history; now rewrite Ht|]. split; [exact Hf|].
  split.
  - exact (proj1 (respects_get_current_version f1 f2 Hsame _ _ Ha)).
  - intros new_version.
    exact (proj1 (respects_update_version f1 f2 Hsame new_version _ _ Ha)).
Qed.

(** ** The three kinds of request *)

(** The leading [v] before a version that [semver] accepts. *)
Lemma v_then_version_run (s : string) (dry_run : bool) (w : world) :
  semver.parse s <> None ->
  bump_command linesep ask (Some ("v" ++ s)) dry_run w
  = bump_command linesep ask (Some s) dry_run w.
Proof.
  intros Hs. destruct (semver.parse s) as [v|] eqn:Hp; [|congruence].
  destruct (semver.parse_leading_digit _ _ Hp) as (c & r & -> & Hc).
  apply leading_v_run; [reflexivity | now apply digit_not_keyword | now apply digit_not_v].
Qed.

(** What [finish] returns and the file it leaves depend on the file it
    finds, not on the events so far. *)
Lemma finish_file dry_run cur X (w1 w2 : world) :
  pyproject_toml w1 = pyproject_toml w2 ->
  fst (finish linesep dry_run cur X w1) = fst (finish linesep dry_run cur X w2)
  /\ pyproject_toml (snd (finish linesep dry_run cur X w1))
     = pyproject_toml (snd (finish linesep dry_run cur X w2)).
Proof.
  intros Hf. destruct dry_run.
  - rewrite !finish_dry_run. now split.
  - rewrite !finish_apply, Hf.
    destruct (rewritten linesep (pyproject_toml w2) X) as [data|];
      [cbv zeta; destruct (stored_version (Regular false data)) as [it|];
         [destruct (tomlkit.item_differs it X)|]|];
      now split.
Qed.

(** X12.  On a valid manifest, a keyword, the explicit request of the
    version that the keyword stands for (with or without a leading [v]),
    and the choice of that keyword at the prompt all give the same result
    and leave the same file. *)
Theorem three_requests_one_outcome
    (kw : string) (dry_run : bool) (w : world) (cur : string) (v : semver.Version) :
  fst (get_current_version w) = Ok (tomlkit.StringItem cur) ->
  semver.parse cur = Some v ->
  is_keyword kw = true ->
  forall request,
    request = Some (semver.to_string (bumped kw v))
    \/ request = Some ("v" ++ semver.to_string (bumped kw v))
    \/ (given request = false /\
        exists choice,
          ask (select_title cur) (select_choices cur v) = Some choice
          /\ choice_bump_type choice = kw) ->
    fst (bump_command linesep ask request dry_run w)
    = fst (bump_command linesep ask (Some kw) dry_run w)
    /\ pyproject_toml (snd (bump_command linesep ask request dry_run w))
       = pyproject_toml (snd (bump_command linesep ask (Some kw) dry_run w)).
Proof.
  intros Hs%get_current_version_stored Hp Hk request Hreq.
  rewrite (keyword_run linesep ask w cur v Hs Hp kw dry_run Hk).
  set (X := semver.to_string (bumped kw v)) in *.
  assert (HX : semver.parse X <> None)
    by (unfold X; rewrite parse_bumped; discriminate).
  assert (Hexp : bump_command linesep ask (Some X) dry_run w
                 = finish linesep dry_run cur X
                     (after w [PathExists; OpenRead; Log INFO (CurrentVersion cur);
                               Log INFO (NewVersionWillBe X)])).
  { destruct (semver.parse X) as [x|] eqn:E; [|congruence].
    destruct (semver.parse_leading_digit _ _ E) as (c & r & Hcr & Hc).
    assert (Hst : strip_v X = X)
      by (unfold strip_v; rewrite Hcr; now rewrite (digit_not_v c r Hc)).
    rewrite <- Hst at 2 3.
    apply explicit_run with (v := v); auto.
    - now rewrite Hcr.
    - rewrite Hcr. now apply digit_not_keyword.
    - rewrite Hst. congruence. }
  destruct Hreq as [-> | [-> | (Hg & choice & Ha & Hc)]].
  - rewrite Hexp. now apply finish_file.
  - rewrite (v_then_version_run X dry_run w HX), Hexp. now apply finish_file.
  - assert (Hne : choice_bump_type choice <> "")
      by (rewrite Hc; destruct (is_keyword_inv linesep ask _ Hk) as [->|[->| ->]];
          discriminate).
    assert (Hgc : given (Some choice) = true)
      by (destruct choice; [now elim Hne | reflexivity]).
    rewrite (choice_run linesep ask w cur v Hs Hp request dry_run choice Hg Ha Hgc Hne).
    rewrite Hc. now apply finish_file.
Qed.

(** ** When the write can and cannot happen *)

Lemma rewritten_writable (f : path_state) (X data : string) :
  rewritten linesep f X = Some data -> exists old, f = Regular false old.
Proof.
  unfold rewritten. destruct f as [| |[|] old]; try discriminate. now exists old.
Qed.

Lemma unwritable_not_opened (f : path_state) (X : string) :
  (forall old, f <> Regular false old) -> after_failed_update f X = f.
Proof.
  intros Hf. unfold after_failed_update, opened_for_writing.
  destruct f as [| |[|] old]; try reflexivity. now elim (Hf old).
Qed.

Lemma ending_unwritable f r f' h :
  (forall old, f <> Regular false old) ->
  ending linesep ask f false r f' h ->
  (exists e, r = Raise e) /\ f' = f /\ forall data, ~ In (FileWritten data) h.
Proof.
  intros Hf E.
  assert (Hno : forall X data, rewritten linesep f X <> Some data).
  { intros X data H. destruct (rewritten_writable _ _ _ H) as [old ->].
    now apply (Hf old). }
  inversion E as [dr e evs Hstop| |X evs Hpre HX Hw|X evs data Hpre HX Hw
                  |X evs data it Hpre HX Hw|cur X evs data Hpre HX Hw];
    subst; try (exfalso; now apply (Hno X data)).
  - split; [now exists e|]. split; [reflexivity|].
    intros data Hin. now apply (stop_writes_nothing _ _ _ Hstop data).
  - split; [now exists (Exit 1)|]. split; [now apply unwritable_not_opened|].
    intros data Hin. in_ending Hin Hpre.
Qed.

(** X13.  Without [dry_run], on a manifest that is not a writable regular
    file (missing, unopenable or read-only) the command never returns
    normally: every run ends with an exception, writes nothing and leaves
    the manifest as it was; in particular it never creates it. *)
Theorem unwritable_manifest_is_safe (version : option string) (f : path_state) :
  (forall old, f <> Regular false old) ->
  (exists e, fst (bump_command linesep ask version false (start f)) = Raise e)
  /\ pyproject_toml (snd (bump_command linesep ask version false (start f))) = f
  /\ forall data,
       ~ In (FileWritten data)
            (history (snd (bump_command linesep ask version false (start f)))).
Proof.
  intros Hf. apply ending_unwritable; [exact Hf | apply run_ending].
Qed.

(** X14.  A dry run predicts the run without [dry_run]: if the dry run
    announces the version [X], then the other run announces it too and
    calls [update_version] with it; and if updating the manifest with [X]
    gives bytes in which the version reads back as the string [X], that
    run returns normally and leaves those bytes in the file. *)
Theorem dry_run_predicts
    (version : option string) (f : path_state) (X data : string) :
  In (Log INFO (NewVersionWillBe X))
     (history (snd (bump_command linesep ask version true (start f)))) ->
  In (Log INFO (NewVersionWillBe X))
     (history (snd (bump_command linesep ask version false (start f))))
  /\ (rewritten linesep f X = Some data ->
      stored_version (Regular false data) = Some (tomlkit.StringItem X) ->
      fst (bump_command linesep ask version false (start f)) = Ok tt
      /\ pyproject_toml (snd (bump_command linesep ask version false (start f)))
         = Regular false data).
Proof.
  intros Hin.
  destruct (bump_command_plan linesep ask version (start f))
    as [e evs Hstop Hrun|cur Y evs Hpre HY Hrun].
  - exfalso. rewrite (Hrun true) in Hin. cbn [snd] in Hin.
    rewrite history_after_start in Hin.
    now apply (proj2 (proj2 (stop_shape _ _ Hstop)) X).
  - assert (E : Y = X).
    { rewrite (Hrun true), finish_dry_run, after_after in Hin. cbn [snd] in Hin.
      rewrite history_after_start, <- List.app_assoc in Hin.
      in_ending Hin Hpre. now injection Hin. }
    subst Y. rewrite (Hrun false). split.
    + unfold history. apply -> in_rev.
      destruct (finish_trace false cur X
                  (after (start f) (evs ++ [Log INFO (NewVersionWillBe X)])))
        as (l & -> & _).
      apply in_app_iff. right. apply in_trace_after. left.
      apply in_app_iff. right. now left.
    + intros Hw Hst. rewrite finish_apply.
      change (pyproject_toml (after (start f) (evs ++ [Log INFO (NewVersionWillBe X)])))
        with f.
      rewrite Hw. cbv zeta. rewrite Hst.
      replace (tomlkit.item_differs (tomlkit.StringItem X) X) with false
        by (symmetry; now apply item_differs_false).
      now split.
Qed.

End Beyond.

(** ** The further properties at concrete runs *)

(** [announced_version_is_valid] at the manifest [0.1.0] and the request
    [patch]. *)
Lemma announced_version_is_valid_witness :
  In (Log INFO (NewVersionWillBe "0.1.1"))
     (history (snd (bump_command MiniToml.lf MiniToml.silent (Some "patch") false
                      (start (Regular false (MiniToml.manifest MiniToml.lf "0.1.0"))))))
  /\ semver.parse "0.1.1" <> None.
Proof.
  assert (H : In (Log INFO (NewVersionWillBe "0.1.1"))
     (history (snd (bump_command MiniToml.lf MiniToml.silent (Some "patch") false
                      (start (Regular false (MiniToml.manifest MiniToml.lf "0.1.0")))))))
    by (vm_compute; repeat (first [left; reflexivity | right])).
  split; [exact H|].
  exact (proj1 (announced_version_is_valid MiniToml.lf MiniToml.silent (Some "patch")
                  false (Regular false (MiniToml.manifest MiniToml.lf "0.1.0"))
                  "0.1.1" H)).
Defined.

(** [bumps_chain] at the manifest [0.1.0] and the request [patch]. *)
Lemma bumps_chain_witness :
  let run := bump_command MiniToml.lf MiniToml.silent (Some "patch") false
               (start (Regular false (MiniToml.manifest MiniToml.lf "0.1.0"))) in
  fst run = Ok tt
  /\ exists X v,
       fst (get_current_version (snd run)) = Ok (tomlkit.StringItem X)
       /\ semver.parse X = Some v.
Proof.
  cbv zeta.
  assert (Hok : fst (bump_command MiniToml.lf MiniToml.silent (Some "patch") false
                       (start (Regular false (MiniToml.manifest MiniToml.lf "0.1.0"))))
                = Ok tt) by reflexivity.
  split; [exact Hok|].
  destruct (bumps_chain MiniToml.lf MiniToml.silent (Some "patch")
              (Regular false (MiniToml.manifest MiniToml.lf "0.1.0")) Hok)
    as (X & v & _ & Hread & Hparse & _).
  exists X, v. split; [exact Hread | exact Hparse].
Defined.

(** [offered_choice_is_a_bump] at the manifest [1.9.9] and a user who
    picks the second choice. *)
Lemma offered_choice_is_a_bump_witness :
  let w := MiniToml.project "1.9.9" in
  let v := semver.mkVersion 1 9 9 None None in
  given None = false
  /\ fst (get_current_version w) = Ok (tomlkit.StringItem "1.9.9")
  /\ semver.parse "1.9.9" = Some v
  /\ nth_error (select_choices "1.9.9" v) 1 = Some "Minor (1.9.9 -> 1.10.0)"
  /\ MiniToml.picks 1 (select_title "1.9.9") (select_choices "1.9.9" v)
     = Some "Minor (1.9.9 -> 1.10.0)"
  /\ exists kw,
       nth_error ["patch"; "minor"; "major"] 1 = Some kw
       /\ bump_command MiniToml.lf (MiniToml.picks 1) None true w
          = finish MiniToml.lf true "1.9.9" (semver.to_string (bumped kw v))
              (after w [PathExists; OpenRead; Log INFO (CurrentVersion "1.9.9");
                        Prompt (select_title "1.9.9") (select_choices "1.9.9" v);
                        Log INFO (BumpingUsing kw);
                        Log INFO (NewVersionWillBe (semver.to_string (bumped kw v)))]).
Proof.
  cbv zeta. do 5 (split; [reflexivity|]).
  exact (offered_choice_is_a_bump MiniToml.lf (MiniToml.picks 1) None true
           (MiniToml.project "1.9.9") "1.9.9" (semver.mkVersion 1 9 9 None None)
           1 "Minor (1.9.9 -> 1.10.0)" eq_refl eq_refl eq_refl eq_refl eq_refl).
Defined.

(** [keyword_bump_increases] at the manifest [2.0.0-beta] and the request
    [patch]: the version announced is [2.0.1]. *)
Lemma keyword_bump_increases_witness :
  let f := Regular false (MiniToml.manifest MiniToml.lf "2.0.0-beta") in
  let v := semver.mkVersion 2 0 0 (Some "beta") None in
  fst (get_current_version (start f)) = Ok (tomlkit.StringItem "2.0.0-beta")
  /\ semver.parse "2.0.0-beta" = Some v
  /\ is_keyword "patch" = true
  /\ exists X next,
       In (Log INFO (NewVersionWillBe X))
          (history (snd (bump_command MiniToml.lf MiniToml.silent (Some "patch") true
                           (start f))))
       /\ semver.parse X = Some next
       /\ core_lt v next
       /\ X <> "2.0.0-beta".
Proof.
  cbv zeta. do 3 (split; [reflexivity|]).
  exact (keyword_bump_increases MiniToml.lf MiniToml.silent "patch" true
           (Regular false (MiniToml.manifest MiniToml.lf "2.0.0-beta"))
           "2.0.0-beta" (semver.mkVersion 2 0 0 (Some "beta") None)
           eq_refl eq_refl eq_refl).
Defined.

(** [three_requests_one_outcome] at the manifest [1.0.0]: the keyword
    [minor] and the explicit version [v1.1.0]. *)
Lemma three_requests_one_outcome_witness :
  let w := MiniToml.project "1.0.0" in
  fst (get_current_version w) = Ok (tomlkit.StringItem "1.0.0")
  /\ semver.parse "1.0.0" = Some (semver.mkVersion 1 0 0 None None)
  /\ is_keyword "minor" = true
  /\ fst (bump_command MiniToml.lf MiniToml.silent (Some "v1.1.0") false w)
     = fst (bump_command MiniToml.lf MiniToml.silent (Some "minor") false w)
  /\ pyproject_toml (snd (bump_command MiniToml.lf MiniToml.silent (Some "v1.1.0") false w))
     = pyproject_toml (snd (bump_command MiniToml.lf MiniToml.silent (Some "minor") false w)).
Proof.
  cbv zeta. do 3 (split; [reflexivity|]).
  exact (three_requests_one_outcome MiniToml.lf MiniToml.silent "minor" false
           (MiniToml.project "1.0.0") "1.0.0" (semver.mkVersion 1 0 0 None None)
           eq_refl eq_refl eq_refl (Some "v1.1.0") (or_intror (or_introl eq_refl))).
Defined.

(** [unwritable_manifest_is_safe] at a read-only manifest and the request
    [minor]. *)
Lemma unwritable_manifest_is_safe_witness :
  let f := Regular true (MiniToml.manifest MiniToml.lf "1.9.9") in
  (forall old, f <> Regular false old)
  /\ pyproject_toml (snd (bump_command MiniToml.lf MiniToml.silent (Some "minor") false
                            (start f))) = f.
Proof.
  cbv zeta.
  assert (H : forall old,
             Regular true (MiniToml.manifest MiniToml.lf "1.9.9") <> Regular false old)
    by discriminate.
  split; [exact H|].
  exact (proj1 (proj2 (unwritable_manifest_is_safe MiniToml.lf MiniToml.silent
                         (Some "minor") _ H))).
Defined.

(** [dry_run_predicts] at the manifest [1.9.9] and the request [minor]. *)
Lemma dry_run_predicts_witness :
  let f := Regular false (MiniToml.manifest MiniToml.lf "1.9.9") in
  In (Log INFO (NewVersionWillBe "1.10.0"))
     (history (snd (bump_command MiniToml.lf MiniToml.silent (Some "minor") true (start f))))
  /\ rewritten MiniToml.lf f "1.10.0" = Some (MiniToml.manifest MiniToml.lf "1.10.0")
  /\ stored_version (Regular false (MiniToml.manifest MiniToml.lf "1.10.0"))
     = Some (tomlkit.StringItem "1.10.0")
  /\ fst (bump_command MiniToml.lf MiniToml.silent (Some "minor") false (start f)) = Ok tt
  /\ pyproject_toml (snd (bump_command MiniToml.lf MiniToml.silent (Some "minor") false
                            (start f)))
     = Regular false (MiniToml.manifest MiniToml.lf "1.10.0").
Proof.
  cbv zeta.
  assert (H : In (Log INFO (NewVersionWillBe "1.10.0"))
     (history (snd (bump_command MiniToml.lf MiniToml.silent (Some "minor") true
                      (start (Regular false (MiniToml.manifest MiniToml.lf "1.9.9")))))))
    by (vm_compute; repeat (first [left; reflexivity | right])).
  split; [exact H|]. split; [reflexivity|]. split; [reflexivity|].
  exact (proj2 (dry_run_predicts MiniToml.lf MiniToml.silent (Some "minor")
                  (Regular false (MiniToml.manifest MiniToml.lf "1.9.9"))
                  "1.10.0" (MiniToml.manifest MiniToml.lf "1.10.0") H)
           eq_refl eq_refl).
Defined.
